(** * UK-Inflation: the upload-and-forecast page of [main.py]

    A shallow embedding of the Streamlit script [src/main.py]: the two CSV
    loaders, the inner join on the year index, the computation of the
    forecast years and the order in which the page elements are rendered
    inside the [try] block, followed by the properties of the page that
    the specification states.

    What belongs to pandas, Streamlit and matplotlib is modelled by the
    behaviour of the calls the script makes; the two statsmodels forecasts
    are parameters of the pipeline.  Years are 64-bit integers, kept as
    [Z] with the range and the wrap-around written out; values are
    binary64 numbers. *)

From Stdlib Require Import List ZArith String Bool Lia Floats.
From Stdlib Require Import Sorting.Sorted Sorting.Permutation.
Import ListNotations.

#[local] Set Warnings "-inexact-float".

Local Open Scope string_scope.
Local Open Scope list_scope.
Local Open Scope Z_scope.

(* ================================================================== *)
(** ** Exceptions *)
(* ================================================================== *)

(** The instances of Python's [Exception] that the calls of the script
    raise.  [LibraryError] stands for whatever statsmodels raises while
    fitting or forecasting.  A message is given without the details the
    libraries append to it (the offending literal of a decimal, the two
    shapes).  Signals outside [Exception] (KeyboardInterrupt, SystemExit)
    are not failures of a stage and are not represented. *)
Inductive exn : Type :=
| EmptyDataError
| ValueError (msg : string)
| IndexError (msg : string)
| OverflowError (msg : string)
| LibraryError (msg : string).

(** [str(e)], as interpolated by the handler's f-string. *)
Definition str (e : exn) : string :=
  match e with
  | EmptyDataError => "No columns to parse from file"
  | ValueError m => m
  | IndexError m => m
  | OverflowError m => m
  | LibraryError m => m
  end.

(** A computation that returns or raises. *)
Definition result (A : Type) : Type := (exn + A)%type.

Definition rbind {A B : Type} (r : result A) (k : A -> result B) : result B :=
  match r with
  | inl e => inl e
  | inr a => k a
  end.

Notation "'let*' x ':=' r 'in' k" := (rbind r (fun x => k))
  (at level 10, x pattern, r at level 200, k at level 200).

(** Element-wise conversion of a column: the first failing element raises. *)
Fixpoint mapM {A B : Type} (f : A -> result B) (l : list A) : result (list B) :=
  match l with
  | [] => inr []
  | a :: t =>
      let* b := f a in
      let* bs := mapM f t in
      inr (b :: bs)
  end.

(* ================================================================== *)
(** ** 64-bit integers and binary64 numbers *)
(* ================================================================== *)

Module Int64.

Definition min_int : Z := - 2 ^ 63.
Definition max_int : Z := 2 ^ 63 - 1.

(** The values of numpy's [int64] and [uint64]. *)
Definition int64 (z : Z) : bool := (min_int <=? z) && (z <=? max_int).
Definition uint64 (z : Z) : bool := (0 <=? z) && (z <? 2 ^ 64).

(** The [int64] a 64-bit pattern stands for: what a cast from [uint64]
    and an overflowing [int64] addition give. *)
Definition wrap (z : Z) : Z := (z + 2 ^ 63) mod 2 ^ 64 - 2 ^ 63.

(** [a + b] on a [numpy.int64] and an integer. *)
Definition add (a b : Z) : Z := wrap (a + b).

(** The integers binary64 holds exactly whatever their last digit:
    magnitude at most 2^53.  An integer year in this range is the same
    whether pandas carries it in an integer, a float or a text column. *)
Definition exact (z : Z) : bool := (- 2 ^ 53 <=? z) && (z <=? 2 ^ 53).

End Int64.

Module Binary64.

(** The binary64 number nearest to an integer (ties to even). *)
Definition of_Z (z : Z) : float :=
  SF2Prim (binary_normalize prec emax z 0 false).

(** Truncation toward zero of a finite number, the float-to-int cast;
    0 on an infinity or NaN, which the callers exclude. *)
Definition trunc (x : float) : Z :=
  match Prim2SF x with
  | S754_finite s m e =>
      let v := if 0 <=? e then Z.pos m * 2 ^ e else Z.pos m / 2 ^ (- e) in
      if s then - v else v
  | _ => 0
  end.

End Binary64.

(* ================================================================== *)
(** ** The pandas calls of the two loaders *)
(* ================================================================== *)

Module Pandas.

(** A field of a CSV line, by what the readers make of its text:
    - [CInt z]: an integer literal, of any size;
    - [CDec x]: a numeric literal that is not an integer literal
      ([5.7], [2020.0], [1e3], [inf]), read as the binary64 number [x]:
      a number for [read_csv] and [to_numeric], refused by [int] applied
      to the text;
    - [CNa]: an empty field or one of the NA spellings, read as NaN;
    - [CText s]: any other text.
    A column that mixes integer literals beyond the 64-bit range with
    decimals or missing fields gets a dtype that depends on the order of
    its rows; it is read here as a float column, whatever the order. *)
Inductive cell : Type :=
| CInt (z : Z)
| CDec (x : float)
| CNa
| CText (s : string).

(** A tokenised line of a two-column file, and an uploaded file. *)
Definition line : Type := (cell * cell)%type.
Definition csv : Type := list line.

(** The dtype [read_csv] infers for a column. *)
Inductive dtype : Type := Int64 | UInt64 | Float64 | Object.

Definition is_int (c : cell) : bool :=
  match c with CInt _ => true | _ => false end.

Definition is_int64 (c : cell) : bool :=
  match c with CInt z => Int64.int64 z | _ => false end.

Definition is_uint64 (c : cell) : bool :=
  match c with CInt z => Int64.uint64 z | _ => false end.

Definition is_float (c : cell) : bool :=
  match c with CText _ => false | _ => true end.

(** A column of integer literals is [int64] when they all fit, [uint64]
    when they fit that and none is negative, and is left as text
    otherwise. *)
Definition infer_dtype (col : list cell) : dtype :=
  match col with
  | [] => Object
  | _ => if forallb is_int col then
           if forallb is_int64 col then Int64
           else if forallb is_uint64 col then UInt64
           else Object
         else if forallb is_float col then Float64
         else Object
  end.

(** [pd.read_csv(f, skiprows=n)]: [n] lines are skipped, the next one
    names the columns, the rest are the data rows. *)
Definition read_csv (skiprows : nat) (f : csv) : result (list line) :=
  match skipn skiprows f with
  | [] => inl EmptyDataError
  | _header :: rows => inr rows
  end.

(** [pd.to_numeric(col, errors='coerce')] on one element: [None] is NaN.
    An integer is carried as the binary64 number it converts to, which
    is what the fits and the charts make of it. *)
Definition to_numeric (c : cell) : option float :=
  match c with
  | CInt z => Some (Binary64.of_Z z)
  | CDec x => if is_nan x then None else Some x
  | CNa => None
  | CText _ => None
  end.

Definition notna {A : Type} (o : option A) : bool :=
  match o with Some _ => true | None => false end.

(** [col.astype(int)] on one element of a column of dtype [dt].
    - An [int64] column is unchanged and a [uint64] column wraps.
    - A float column refuses NaN and the infinities and truncates the
      rest.  An integer literal in it was read as the binary64 number
      nearest to it: up to magnitude 2^53 that is the integer itself,
      which comes out of the cast as it went in; a larger one comes out
      as the truncation of that binary64.  (Past the 64-bit range numpy
      leaves the result of the cast to the platform.)
    - In an object column the element is the text of the field (or NaN)
      and goes through [int], then into an [int64]. *)
Definition astype_int (dt : dtype) (c : cell) : result Z :=
  match c, dt with
  | CInt z, Int64 => inr z
  | CInt z, UInt64 => inr (Int64.wrap z)
  | CInt z, Float64 =>
      inr (if Int64.exact z then z else Binary64.trunc (Binary64.of_Z z))
  | CInt z, Object =>
      if Int64.int64 z then inr z
      else inl (OverflowError "Python int too large to convert to C long")
  | CDec x, Object =>
      inl (ValueError "invalid literal for int() with base 10")
  | CDec x, _ =>
      if is_finite x then inr (Binary64.trunc x)
      else inl (ValueError "Cannot convert non-finite values (NA or inf) to integer")
  | CNa, Object => inl (ValueError "cannot convert float NaN to integer")
  | CNa, _ =>
      inl (ValueError "Cannot convert non-finite values (NA or inf) to integer")
  | CText s, _ =>
      inl (ValueError ("invalid literal for int() with base 10: '" ++ s ++ "'")%string)
  end.

(** [df['Year'] = df['Year'].astype(int)]: the whole column is cast, the
    other column is untouched. *)
Definition astype_year (dt : dtype) (rows : list line) : result (list (Z * cell)) :=
  mapM (fun r : line => let* y := astype_int dt (fst r) in inr (y, snd r)) rows.

(** [df[col] = pd.to_numeric(df[col], errors='coerce')] on the value column. *)
Definition coerce_value (rows : list (Z * cell)) : list (Z * option float) :=
  map (fun r => (fst r, to_numeric (snd r))) rows.

(** [df.dropna()]: the year column holds integers, so a row goes exactly
    when its value is NaN. *)
Fixpoint dropna (rows : list (Z * option float)) : list (Z * float) :=
  match rows with
  | [] => []
  | (y, Some v) :: t => (y, v) :: dropna t
  | (_, None) :: t => dropna t
  end.

(** [df.set_index('Year').sort_index()]: rows in ascending order of the
    year.  Rows of equal year keep their relative order here; pandas
    leaves that order to the sorting kind, and nothing below depends on
    it. *)
Fixpoint insert_row {A : Type} (r : Z * A) (l : list (Z * A)) : list (Z * A) :=
  match l with
  | [] => [r]
  | h :: t => if fst r <=? fst h then r :: l else h :: insert_row r t
  end.

Fixpoint sort_index {A : Type} (l : list (Z * A)) : list (Z * A) :=
  match l with
  | [] => []
  | r :: t => insert_row r (sort_index t)
  end.

(** A row of the joined frame. *)
Record row : Type := mkRow { Year : Z; CPIH : float; GDP_Growth : float }.

(** The rows of a frame under a year. *)
Definition matching (k : Z) (r : list (Z * float)) : list (Z * float) :=
  filter (fun b => fst b =? k) r.

(** [left.join(right, how='inner')] on the year index: every pairing of a
    left row with a right row of the same year, in the order of the left
    frame. *)
Definition join_inner (l r : list (Z * float)) : list row :=
  flat_map
    (fun a => map (fun b => mkRow (fst a) (snd a) (snd b)) (matching (fst a) r))
    l.

Definition index (df : list row) : list Z := map Year df.

End Pandas.

Import Pandas.

(* ================================================================== *)
(** ** The two loaders (lines 17-22 and 25-29) *)
(* ================================================================== *)

(** The inflation file: six lines skipped, rows whose year is not a
    number masked out, the year cast to [int], the value coerced, NaN
    rows dropped, the frame indexed and sorted by year. *)
Definition load_cpih (cpih_file : csv) : result (list (Z * float)) :=
  let* df_cpih := read_csv 6 cpih_file in
  let dt := infer_dtype (map fst df_cpih) in
  let df_cpih := filter (fun r : line => notna (to_numeric (fst r))) df_cpih in
  let* df_cpih := astype_year dt df_cpih in
  inr (sort_index (dropna (coerce_value df_cpih))).

(** The GDP file: nothing skipped and no mask; the year column is cast
    as it was read. *)
Definition load_gdp (gdp_file : csv) : result (list (Z * float)) :=
  let* df_gdp := read_csv 0 gdp_file in
  let dt := infer_dtype (map fst df_gdp) in
  let* df_gdp := astype_year dt df_gdp in
  inr (sort_index (dropna (coerce_value df_gdp))).

(* ================================================================== *)
(** ** The page: elements and the rendering monad *)
(* ================================================================== *)

Module Streamlit.

(** One forecast step of [get_forecast]: [predicted_mean] and the two
    columns of [conf_int()], which statsmodels derives from one and the
    same prediction and which therefore have one length. *)
Record prediction : Type := mkPrediction { mean : float; lower : float; upper : float }.

(** What [get_forecast] returns: the steps, and the label statsmodels
    gives the first of them.  The aligned table is indexed by integers,
    so the labels of the forecast are consecutive integers; which one
    comes first is up to statsmodels. *)
Record forecast_results : Type := mkForecast {
  first_label : Z;
  predictions : list prediction
}.

(** A row of NaN. *)
Definition nan_row : prediction := mkPrediction nan nan nan.

(** What the matplotlib figure of lines 67-76 shows. *)
Record figure : Type := mkFigure {
  hist_x : list Z;  hist_y : list float;
  fc_x : list Z;    fc_y : list float;
  band_lower : list float;  band_upper : list float
}.

(** The elements the script puts on the page.  A widget carries the
    value it returns in this run.  [Dataframe] holds the index of the
    forecast frame and its rows, one per index entry.  The spinners are
    transient and leave nothing on the page. *)
Inductive element : Type :=
| Title (s : string)
| Markdown (s : string)
| FileUploader (label : string)
| Subheader (s : string)
| LineChart (df : list row)
| Slider (label : string) (value : Z)
| NumberInput (label : string) (value : Z)
| Pyplot (fig : figure)
| Dataframe (idx : list Z) (columns : list prediction)
| ErrorMsg (msg : string).

(** A script step: it reads the page rendered so far, appends to it, and
    returns or raises.  What was rendered before an exception stays. *)
Definition M (A : Type) : Type := list element -> result A * list element.

Definition ret {A : Type} (a : A) : M A := fun page => (inr a, page).

Definition bind {A B : Type} (m : M A) (k : A -> M B) : M B :=
  fun page =>
    match m page with
    | (inl e, page') => (inl e, page')
    | (inr a, page') => k a page'
    end.

Definition lift {A : Type} (r : result A) : M A := fun page => (r, page).

Definition emit (x : element) : M unit := fun page => (inr tt, page ++ [x]).

(** [try: body except Exception as e: handler(e)]. *)
Definition try_except (body : M unit) (handler : exn -> M unit) : M unit :=
  fun page =>
    match body page with
    | (inl e, page') => handler e page'
    | (inr tt, page') => (inr tt, page')
    end.

End Streamlit.

Import Streamlit.

Notation "x <- c1 ;; c2" := (bind c1 (fun x => c2))
  (at level 61, c1 at next level, right associativity).
Notation "c1 ;; c2" := (bind c1 (fun _ => c2))
  (at level 61, right associativity).

(** The values the widgets return in a run: the horizon and the two
    triples of model orders. *)
Record config : Type := mkConfig {
  n_years : Z;
  p : Z;  d : Z;  q : Z;
  pg : Z; dg : Z; qg : Z
}.

(** The defaults of the widgets: horizon 5, orders (1, 1, 1) twice. *)
Definition default_config : config := mkConfig 5 1 1 1 1 1 1.

(* ================================================================== *)
(** ** Forecast years and the figure (lines 63-76) *)
(* ================================================================== *)

(** Python's [range(lo, hi)] as a list. *)
Definition range (lo hi : Z) : list Z :=
  map (fun i => lo + Z.of_nat i) (seq 0 (Z.to_nat (hi - lo))).

(** [df.index[-1]]. *)
Definition last_index (df : list row) : result Z :=
  match rev (index df) with
  | [] => inl (IndexError "index -1 is out of bounds for axis 0 with size 0")
  | y :: _ => inr y
  end.

(** [list(range(df.index[-1] + 1, df.index[-1] + 1 + n_years))]: the
    last index entry is a [numpy.int64] and the additions are its own. *)
Definition forecast_years (df : list row) (n : Z) : result (list Z) :=
  let* y := last_index df in
  inr (range (Int64.add y 1) (Int64.add (Int64.add y 1) n)).

(** Lines 67-75.  [ax.plot(x, y)] refuses an [x] and a [y] of different
    lengths; the historical line has one value per index entry, and the
    band has the length of the forecast. *)
Definition plot_forecast (df : list row) (years : list Z)
    (forecast_res : list prediction) : result figure :=
  if (List.length years =? List.length forecast_res)%nat
  then inr (mkFigure (index df) (map CPIH df)
                     years (map mean forecast_res)
                     (map lower forecast_res) (map upper forecast_res))
  else inl (ValueError "x and y must have same first dimension").

(** Lines 80-84.  [pd.DataFrame({...}, index=years)] is given three
    columns that carry the labels of the forecast and lines them up with
    [years] by label, not by position: the row of a year is the forecast
    step labelled with that year, and a row of NaN when no step is. *)
Definition reindex (fr : forecast_results) (years : list Z) : list prediction :=
  map (fun y =>
         if (first_label fr <=? y)
            && (y <? first_label fr + Z.of_nat (List.length (predictions fr)))
         then nth (Z.to_nat (y - first_label fr)) (predictions fr) nan_row
         else nan_row)
      years.

(* ================================================================== *)
(** ** The script *)
(* ================================================================== *)

Section Script.

(** [ARIMA(endog, order=order).fit().forecast(steps=steps)]. *)
Variable arima_forecast : list float -> Z * Z * Z -> Z -> result (list float).

(** [SARIMAX(endog, exog=exog, order=order, ...).fit(disp=False)
    .get_forecast(steps=steps, exog=future_exog)]. *)
Variable sarimax_forecast :
  list float -> list float -> Z * Z * Z -> Z -> list float -> result forecast_results.

(** The widgets of lines 38-48, in order. *)
Definition widgets (cfg : config) : list element :=
  [ Slider "Forecast horizon (years)" (n_years cfg);
    NumberInput "CPIH AR term (p)" (p cfg);
    NumberInput "CPIH Differencing (d)" (d cfg);
    NumberInput "CPIH MA term (q)" (q cfg);
    NumberInput "GDP AR term (p)" (pg cfg);
    NumberInput "GDP Differencing (d)" (dg cfg);
    NumberInput "GDP MA term (q)" (qg cfg) ].

(** What lines 34-48 put on the page for an aligned table [df]. *)
Definition historical (cfg : config) (df : list row) : list element :=
  Subheader "Historical Data" :: LineChart df :: widgets cfg.

Fixpoint emit_all (l : list element) : M unit :=
  match l with
  | [] => ret tt
  | x :: t => emit x ;; emit_all t
  end.

(** The body of the [try] block, lines 16-85. *)
Definition pipeline (cfg : config) (cpih_file gdp_file : csv) : M unit :=
  df_cpih <- lift (load_cpih cpih_file) ;;
  df_gdp <- lift (load_gdp gdp_file) ;;
  df <- ret (join_inner df_cpih df_gdp) ;;
  emit (Subheader "Historical Data") ;;
  emit (LineChart df) ;;
  emit_all (widgets cfg) ;;
  gdp_forecast <- lift (arima_forecast (map GDP_Growth df)
                          (pg cfg, dg cfg, qg cfg) (n_years cfg)) ;;
  forecast_res <- lift (sarimax_forecast (map CPIH df) (map GDP_Growth df)
                          (p cfg, d cfg, q cfg) (n_years cfg) gdp_forecast) ;;
  years <- lift (forecast_years df (n_years cfg)) ;;
  emit (Subheader "CPIH Forecast") ;;
  fig <- lift (plot_forecast df years (predictions forecast_res)) ;;
  emit (Pyplot fig) ;;
  emit (Subheader "Forecast Table") ;;
  emit (Dataframe years (reindex forecast_res years)).

(** Lines 8-12: rendered in every run. *)
Definition page_header : list element :=
  [ Title "UK CPIH Inflation Forecast (with GDP Growth)";
    Markdown "Upload CPIH inflation and GDP growth data to forecast future inflation using ARIMAX.";
    FileUploader "Upload CPIH CSV file";
    FileUploader "Upload GDP Growth CSV file" ].

(** The handler of lines 87-88. *)
Definition handler (e : exn) : M unit :=
  emit (ErrorMsg ("Error: " ++ str e)%string).

(** The whole script.  An uploader returns [None] until a file is
    there, and an uploaded file is truthy. *)
Definition script (cfg : config) (cpih_file gdp_file : option csv) : M unit :=
  emit_all page_header ;;
  match cpih_file, gdp_file with
  | Some c, Some g => try_except (pipeline cfg c g) handler
  | _, _ => ret tt
  end.

(** One run: the script on an empty page. *)
Definition run (cfg : config) (cpih_file gdp_file : option csv)
  : result unit * list element :=
  script cfg cpih_file gdp_file [].

End Script.

(** What a page shows: charts, tables, error messages. *)
Definition is_chart (x : element) : bool :=
  match x with LineChart _ | Pyplot _ => true | _ => false end.

Definition is_table (x : element) : bool :=
  match x with Dataframe _ _ => true | _ => false end.

Definition is_error (x : element) : bool :=
  match x with ErrorMsg _ => true | _ => false end.

Definition is_forecast_output (x : element) : bool :=
  match x with Pyplot _ | Dataframe _ _ => true | _ => false end.

(* ================================================================== *)
(** ** A sample instance of the two forecasts *)
(* ================================================================== *)

(** To run the script on concrete files the two parameters need values.
    These are not statsmodels: they carry the last observation forward,
    and the series they refuse and the messages they raise are chosen
    here so that both outcomes of a fit can be exercised; statsmodels
    need not refuse the same series (an empty one, for instance).  The
    forecast is labelled from the number of observations on, as
    statsmodels labels the forecast of a series whose index it does not
    support.  Every theorem below is stated for any two fits; the sample
    only occurs in runs on concrete files. *)
Definition order_d (order : Z * Z * Z) : Z := snd (fst order).

Definition carry_forward (endog : list float) (order : Z * Z * Z) (steps : Z)
  : result (list float) :=
  match rev endog with
  | [] => inl (LibraryError "zero-size array")
  | v :: _ =>
      if (Z.of_nat (List.length endog) <=? order_d order)
      then inl (LibraryError "too few observations for the differencing order")
      else inr (repeat v (Z.to_nat steps))
  end.

Definition sample_arima : list float -> Z * Z * Z -> Z -> result (list float) :=
  carry_forward.

Definition sample_sarimax (endog exog : list float) (order : Z * Z * Z)
    (steps : Z) (future_exog : list float) : result forecast_results :=
  let* fc := carry_forward endog order steps in
  inr (mkForecast (Z.of_nat (List.length endog))
         (map (fun v => mkPrediction v (v - 1)%float (v + 1)%float) fc)).

(* ================================================================== *)
(** ** Sample files *)
(* ================================================================== *)

Definition obs (y : Z) (v : float) : line := (CInt y, CDec v).

(** The six leading lines of an ONS time-series download, and the line
    that [read_csv] takes for the column names. *)
Definition ons_preamble : csv :=
  [ (CText "Title", CText "CPIH ANNUAL RATE 00: ALL ITEMS 2015=100");
    (CText "CDID", CText "L55O");
    (CText "Source dataset ID", CText "MM23");
    (CText "PreUnit", CNa);
    (CText "Unit", CText "%");
    (CText "Release date", CText "16-10-2024");
    (CText "Next release", CText "20 November 2024") ].

(** Inflation for 2015-2022, followed by the quarterly rows of the
    download. *)
Definition cpih_2015_2022 : csv :=
  ons_preamble ++
  [ (CText "Important notes", CNa);
    obs 2015 0.4; obs 2016 1.0; obs 2017 2.6; obs 2018 2.3;
    obs 2019 1.7; obs 2020 1.0; obs 2021 2.5; obs 2022 7.9;
    (CText "2015 Q1", CDec 0.3); (CText "2015 Q2", CDec 0.4) ].

Definition gdp_title : line := (CText "Year", CText "GDP Growth").

(** GDP growth for 2010-2020. *)
Definition gdp_2010_2020 : csv :=
  [ gdp_title;
    obs 2010 2.2; obs 2011 1.1; obs 2012 1.5; obs 2013 1.8;
    obs 2014 3.2; obs 2015 2.2; obs 2016 1.9; obs 2017 2.7;
    obs 2018 1.4; obs 2019 1.6; (CInt 2020, CDec (-10.4)) ].

(** The same GDP file with a footnote line at the end. *)
Definition gdp_with_footnote : csv :=
  gdp_2010_2020 ++ [ (CText "Source: ONS", CNa) ].


(** An inflation file with a decimal in the year column, next to the
    text rows of the download. *)
Definition cpih_decimal_year : csv :=
  ons_preamble ++
  [ (CText "Important notes", CNa); obs 2019 1.7; (CDec 2020.5, CDec 1.0) ].


(** Two files with no year in common. *)
Definition cpih_2015_2016 : csv :=
  ons_preamble ++ [ obs 2015 0.4; obs 2016 1.0 ].

Definition gdp_2010_2011 : csv :=
  [ gdp_title; obs 2010 2.2; obs 2011 1.1 ].

(** A GDP file that holds its title line only. *)
Definition gdp_title_only : csv := [ gdp_title ].

(** Two observations, and a target model differenced twice. *)
Definition gdp_2015_2016 : csv :=
  [ gdp_title; obs 2015 2.2; obs 2016 1.9 ].

Definition twice_differenced : config := mkConfig 5 1 2 1 1 1 1.

(** The aligned table of the two-observation files. *)
Definition two_rows : list row := [ mkRow 2015 0.4 2.2; mkRow 2016 1.0 1.9 ].

(** A GDP file with its years in descending order. *)
Definition gdp_descending : csv :=
  [ gdp_title; obs 2017 2.7; obs 2016 1.9; obs 2015 2.2 ].

(** The tables the two files without a common year load to. *)
Definition table_2015_2016 : list (Z * float) := [(2015, 0.4%float); (2016, 1.0%float)].
Definition table_2010_2011 : list (Z * float) := [(2010, 2.2%float); (2011, 1.1%float)].

(** Horizon 3, default orders. *)
Definition horizon_3 : config := mkConfig 3 1 1 1 1 1 1.



(** Two files whose years end at 2^63 - 1, the largest [int64]. *)
Definition cpih_last_int64 : csv :=
  ons_preamble ++
  [ obs 9223372036854775805 0.4; obs 9223372036854775806 1.0;
    obs 9223372036854775807 2.6 ].

Definition gdp_last_int64 : csv :=
  [ gdp_title; obs 9223372036854775805 2.2; obs 9223372036854775806 1.9;
    obs 9223372036854775807 2.7 ].

(** An all-numeric inflation file with an infinite year. *)
Definition cpih_infinite_year : csv :=
  ons_preamble ++ [ obs 2019 1.7; (CDec infinity, CDec 1.0) ].

(** A forecast of three steps labelled 6, 7, 8, by position after six
    observations, and the same steps labelled by year. *)
Definition three_steps : list prediction :=
  [ mkPrediction 1.0 0.0 2.0; mkPrediction 1.5 0.5 2.5; mkPrediction 2.0 1.0 3.0 ].

(* ================================================================== *)
(** ** What the specification says of the inflation rows *)
(* ================================================================== *)

(** The rows the specification keeps: an integer year and a numeric
    value, in file order. *)
Definition spec_kept_rows (rows : list line) : list (Z * float) :=
  flat_map
    (fun r : line =>
       match fst r, to_numeric (snd r) with
       | CInt y, Some v => [(y, v)]
       | _, _ => []
       end)
    rows.




(** A year column in which no field is a decimal. *)
Definition is_decimal (c : cell) : bool :=
  match c with CDec x => negb (is_nan x) | _ => false end.


(* ================================================================== *)
(** ** The rows a loader produces, for any year column *)
(* ================================================================== *)

(** The year an accepted field is cast to: an integer literal gives its
    value, a finite decimal is truncated (the cast of a numeric
    column). *)
Definition year_value (c : cell) : option Z :=
  match c with
  | CInt z => Some z
  | CDec x => if is_finite x then Some (Binary64.trunc x) else None
  | CNa => None
  | CText _ => None
  end.

(** The rows with a numeric year and a numeric value, in file order,
    under the year they are cast to. *)
Definition loaded_rows (rows : list line) : list (Z * float) :=
  flat_map
    (fun r : line =>
       match year_value (fst r), to_numeric (snd r) with
       | Some y, Some v => [(y, v)]
       | _, _ => []
       end)
    rows.

Definition is_text (c : cell) : bool :=
  match c with CText _ => true | _ => false end.

(** Some year field is text; some year field is a decimal. *)
Definition text_year (rows : list line) : bool :=
  existsb (fun r : line => is_text (fst r)) rows.

Definition decimal_year (rows : list line) : bool :=
  existsb (fun r : line => is_decimal (fst r)) rows.

(** Some year field is an infinity. *)
Definition infinite_cell (c : cell) : bool :=
  match c with CDec x => negb (is_nan x) && negb (is_finite x) | _ => false end.

Definition infinite_year (rows : list line) : bool :=
  existsb (fun r : line => infinite_cell (fst r)) rows.




(** Every integer year of the file comes out of the cast of a column of
    dtype [dt] as it is written: it is a 64-bit integer, and of
    magnitude at most 2^53 in a float column. *)
Definition kept_cell (dt : dtype) (c : cell) : bool :=
  match c, dt with
  | CInt z, Float64 => Int64.exact z
  | CInt z, _ => Int64.int64 z
  | _, _ => true
  end.

Definition years_kept (dt : dtype) (rows : list line) : bool :=
  forallb (fun r : line => kept_cell dt (fst r)) rows.

(** Every year of the file is, or truncates to, an integer of magnitude
    at most 2^53: the years that come out of the cast the same in a
    column of any dtype. *)
Definition exact_cell (c : cell) : bool :=
  match c with
  | CInt z => Int64.exact z
  | CDec x => if is_finite x then Int64.exact (Binary64.trunc x) else true
  | CNa => true
  | CText _ => true
  end.

Definition exact_years (rows : list line) : bool :=
  forallb (fun r : line => exact_cell (fst r)) rows.

(** The ranges the widgets of lines 38-48 enforce on what they return:
    horizon 1-10, AR and MA orders 0-5, differencing 0-2. *)
Definition between (lo x hi : Z) : bool := (lo <=? x) && (x <=? hi).

Definition widget_ranges (cfg : config) : bool :=
  between 1 (n_years cfg) 10
  && between 0 (p cfg) 5 && between 0 (d cfg) 2 && between 0 (q cfg) 5
  && between 0 (pg cfg) 5 && between 0 (dg cfg) 2 && between 0 (qg cfg) 5.

(** The elements of lines 35-48: the historical chart and the widgets. *)
Definition is_input_section (x : element) : bool :=
  match x with
  | LineChart _ | Slider _ _ | NumberInput _ _ => true
  | _ => false
  end.


(** Line 63 stays inside the 64-bit integers: every year of the table
    leaves room for [n] more. *)
Definition room_for_horizon (df : list row) (n : Z) : bool :=
  forallb (fun y => Int64.int64 (y + 1) && Int64.int64 (y + 1 + n)) (index df).
(* ================================================================== *)
(** ** Sorting by year *)
(* ================================================================== *)

Section SortIndex.
Context {A : Type}.
Implicit Types (r : Z * A) (l : list (Z * A)).



Lemma insert_row_hd k r l :
  k <= fst r -> HdRel Z.le k (map fst l) -> HdRel Z.le k (map fst (insert_row r l)).
Proof.
  intros Hk Hl. destruct l as [|h t]; simpl.
  - constructor. exact Hk.
  - destruct (fst r <=? fst h); simpl; constructor.
    + exact Hk.
    + inversion Hl; assumption.
Qed.

Lemma insert_row_sorted r l :
  Sorted Z.le (map fst l) -> Sorted Z.le (map fst (insert_row r l)).
Proof.
  induction l as [|h t IH]; simpl; intros Hs.
  - repeat constructor.
  - destruct (Z.leb_spec (fst r) (fst h)) as [Hle|Hgt]; simpl.
    + constructor; [exact Hs | constructor; exact Hle].
    + inversion Hs as [|? ? Ht Hh]; subst.
      constructor; [apply IH, Ht | apply insert_row_hd; [lia | exact Hh]].
Qed.

Lemma sort_index_sorted l : Sorted Z.le (map fst (sort_index l)).
Proof.
  induction l as [|r t IH]; simpl.
  - constructor.
  - apply insert_row_sorted, IH.
Qed.

Lemma sort_index_strongly_sorted l : StronglySorted Z.le (map fst (sort_index l)).
Proof.
  apply Sorted_StronglySorted.
  - intros x y z; apply Z.le_trans.
  - apply sort_index_sorted.
Qed.





End SortIndex.

(* ================================================================== *)
(** ** The inner join *)
(* ================================================================== *)

Section Join.
Implicit Types (l r : list (Z * float)) (a : Z * float) (y k : Z).

Lemma index_join_cons a l r :
  index (join_inner (a :: l) r)
  = repeat (fst a) (List.length (matching (fst a) r)) ++ index (join_inner l r).
Proof.
  unfold index, join_inner; simpl. rewrite map_app. f_equal.
  rewrite map_map; simpl.
  induction (matching (fst a) r) as [|b m IH]; simpl; congruence.
Qed.

Lemma matching_nonempty k r :
  In k (map fst r) <-> (0 < List.length (matching k r))%nat.
Proof.
  unfold matching. induction r as [|b t IH]; simpl.
  - split; [contradiction | lia].
  - destruct (Z.eqb_spec (fst b) k) as [He|Hne]; simpl.
    + split; [lia | auto].
    + rewrite <- IH. split; [intros [H|H]; [contradiction | exact H] | auto].
Qed.

Lemma matching_nodup k r :
  NoDup (map fst r) -> (List.length (matching k r) <= 1)%nat.
Proof.
  unfold matching. induction r as [|b t IH]; simpl; intros Hn.
  - lia.
  - inversion Hn as [|? ? Hb Ht]; subst.
    destruct (Z.eqb_spec (fst b) k) as [He|Hne]; simpl.
    + destruct (List.length (filter (fun b0 => fst b0 =? k) t)) eqn:E; [lia |].
      exfalso. apply Hb. rewrite He. apply matching_nonempty.
      unfold matching. lia.
    + apply IH, Ht.
Qed.

(** A year is in the joined index exactly when both frames have it. *)
Lemma in_index_join y l r :
  In y (index (join_inner l r)) <-> In y (map fst l) /\ In y (map fst r).
Proof.
  induction l as [|a t IH].
  - simpl. tauto.
  - rewrite index_join_cons, in_app_iff, IH. simpl. split.
    + intros [H|[H1 H2]].
      * apply repeat_spec in H as Hy. subst y. split; [auto |].
        apply matching_nonempty.
        destruct (List.length (matching (fst a) r)); [contradiction | lia].
      * auto.
    + intros [[H|H] Hr].
      * subst y. left. apply matching_nonempty in Hr.
        destruct (List.length (matching (fst a) r)); [lia | left; reflexivity].
      * right. auto.
Qed.

Lemma sorted_block k n (rest : list Z) :
  Forall (Z.le k) rest -> StronglySorted Z.le rest ->
  StronglySorted Z.le (repeat k n ++ rest).
Proof.
  intros Hk Hs. induction n as [|n IH]; simpl.
  - exact Hs.
  - constructor; [exact IH |].
    apply Forall_app; split; [| exact Hk].
    apply Forall_forall. intros x Hx. apply repeat_spec in Hx. lia.
Qed.

(** The join of a frame sorted by year is sorted by year. *)
Lemma join_sorted l r :
  StronglySorted Z.le (map fst l) -> StronglySorted Z.le (index (join_inner l r)).
Proof.
  induction l as [|a t IH]; intros Hs.
  - constructor.
  - simpl in Hs. inversion Hs as [|? ? Ht Ha]; subst.
    rewrite index_join_cons. apply sorted_block.
    + apply Forall_forall. intros y Hy. apply in_index_join in Hy as [Hy _].
      rewrite Forall_forall in Ha. apply Ha, Hy.
    + apply IH, Ht.
Qed.

(** Frames without a repeated year join without a repeated year. *)
Lemma join_nodup l r :
  NoDup (map fst l) -> NoDup (map fst r) -> NoDup (index (join_inner l r)).
Proof.
  induction l as [|a t IH]; intros Hl Hr.
  - constructor.
  - simpl in Hl. inversion Hl as [|? ? Ha Ht]; subst.
    rewrite index_join_cons.
    pose proof (matching_nodup (fst a) r Hr) as Hm.
    destruct (List.length (matching (fst a) r)) as [|[|n]]; simpl.
    + apply IH; assumption.
    + constructor; [| apply IH; assumption].
      intros Hin. apply in_index_join in Hin as [Hin _]. contradiction.
    + lia.
Qed.

(** Frames with no year in common join to the empty frame. *)
Lemma join_disjoint l r :
  (forall y, In y (map fst l) -> In y (map fst r) -> False) ->
  join_inner l r = [].
Proof.
  intros Hd. destruct (join_inner l r) as [|x t] eqn:E; [reflexivity |].
  exfalso. assert (Hin : In (Year x) (index (join_inner l r))).
  { rewrite E. left. reflexivity. }
  apply in_index_join in Hin as [H1 H2]. exact (Hd _ H1 H2).
Qed.

End Join.


(* ================================================================== *)
(** ** The loaders on the rows of a file *)
(* ================================================================== *)
(** ** The loaders on the rows of a file *)
(* ================================================================== *)


Lemma wrap_int64 (z : Z) : Int64.int64 z = true -> Int64.wrap z = z.
Proof.
  unfold Int64.int64, Int64.wrap, Int64.min_int, Int64.max_int. intros H.
  apply andb_true_iff in H as [H1 H2]. apply Z.leb_le in H1, H2.
  rewrite Z.mod_small by lia. lia.
Qed.

Lemma add_int64 (a b : Z) : Int64.int64 (a + b) = true -> Int64.add a b = a + b.
Proof. apply wrap_int64. Qed.

Lemma exact_int64 (z : Z) : Int64.exact z = true -> Int64.int64 z = true.
Proof.
  unfold Int64.exact, Int64.int64, Int64.min_int, Int64.max_int. intros H.
  apply andb_true_iff in H as [H1 H2]. apply Z.leb_le in H1, H2.
  apply andb_true_iff. split; apply Z.leb_le; lia.
Qed.

Lemma exact_years_kept (dt : dtype) (rows : list line) :
  exact_years rows = true -> years_kept dt rows = true.
Proof.
  unfold exact_years, years_kept. rewrite !forallb_forall. intros H r Hr.
  specialize (H r Hr). destruct (fst r), dt; simpl in *; auto using exact_int64.
Qed.

Lemma astype_int_literal (dt : dtype) (z : Z) :
  kept_cell dt (CInt z) = true -> astype_int dt (CInt z) = inr z.
Proof.
  intros H. destruct dt; simpl in *; try reflexivity.
  - rewrite wrap_int64 by exact H. reflexivity.
  - rewrite H. reflexivity.
  - rewrite H. reflexivity.
Qed.

(** Only a column read as text refuses an integer literal. *)
Lemma astype_int_literal_numeric (dt : dtype) (z : Z) :
  dt <> Object -> exists y, astype_int dt (CInt z) = inr y.
Proof. intros Ho. destruct dt; simpl; eauto. contradiction. Qed.

Lemma nan_not_finite (x : float) : is_nan x = true -> is_finite x = false.
Proof. intros H. unfold is_finite. rewrite H. reflexivity. Qed.


Lemma astype_int_decimal (dt : dtype) (x : float) :
  dt <> Object -> is_finite x = true ->
  astype_int dt (CDec x) = inr (Binary64.trunc x).
Proof. intros Ho Hx. destruct dt; simpl; rewrite ?Hx; try reflexivity. contradiction. Qed.

Lemma astype_int_infinite (dt : dtype) (x : float) :
  dt <> Object -> is_finite x = false ->
  astype_int dt (CDec x)
  = inl (ValueError "Cannot convert non-finite values (NA or inf) to integer").
Proof. intros Ho Hx. destruct dt; simpl; rewrite ?Hx; try reflexivity. contradiction. Qed.

Lemma astype_int_decimal_object (x : float) :
  astype_int Object (CDec x) = inl (ValueError "invalid literal for int() with base 10").
Proof. reflexivity. Qed.

Local Opaque astype_int.

(** The mask, the cast and [dropna] on a column in which every cast goes
    through. *)
Lemma masked_rows_loaded (dt : dtype) (rows : list line) :
  years_kept dt rows = true ->
  (dt = Object -> decimal_year rows = false) ->
  infinite_year rows = false ->
  exists df,
    astype_year dt (filter (fun r : line => notna (to_numeric (fst r))) rows) = inr df
    /\ dropna (coerce_value df) = loaded_rows rows.
Proof.
  unfold astype_year, loaded_rows, years_kept, decimal_year, infinite_year.
  induction rows as [|[c v] t IH]; simpl; intros Hi Hd Hf.
  - exists []. split; reflexivity.
  - apply andb_true_iff in Hi as [Hc Hi]. apply orb_false_iff in Hf as [Hfc Hf].
    assert (Ht : dt = Object -> existsb (fun r : line => is_decimal (fst r)) t = false).
    { intros E. specialize (Hd E). apply orb_false_iff in Hd. tauto. }
    destruct (IH Hi Ht Hf) as (df & Hdf & Hk).
    destruct c as [z|x| |s]; simpl in *.
    + rewrite (astype_int_literal dt z Hc). simpl. rewrite Hdf. simpl.
      exists ((z, v) :: df). split; [reflexivity |].
      simpl. destruct (to_numeric v); simpl; rewrite Hk; reflexivity.
    + destruct (is_nan x) eqn:En; simpl in *.
      * rewrite (nan_not_finite x En). exists df. split; assumption.
      * assert (Hx : is_finite x = true) by (destruct (is_finite x); [reflexivity | discriminate]).
        assert (Ho : dt <> Object).
        { intros E. specialize (Hd E). discriminate. }
        rewrite (astype_int_decimal dt x Ho Hx), Hx. simpl. rewrite Hdf. simpl.
        exists ((Binary64.trunc x, v) :: df). split; [reflexivity |].
        simpl. destruct (to_numeric v); simpl; rewrite Hk; reflexivity.
    + exists df. split; assumption.
    + exists df. split; assumption.
Qed.

(** In a column read as text, the first decimal that passes the mask
    stops the cast. *)
Lemma masked_rows_raise (rows : list line) :
  years_kept Object rows = true ->
  decimal_year rows = true ->
  astype_year Object (filter (fun r : line => notna (to_numeric (fst r))) rows)
    = inl (ValueError "invalid literal for int() with base 10").
Proof.
  unfold astype_year, years_kept, decimal_year.
  induction rows as [|[c v] t IH]; simpl; intros Hi Hd; [discriminate |].
  apply andb_true_iff in Hi as [Hc Hi].
  destruct c as [z|x| |s]; simpl in *; try (apply IH; assumption).
  - rewrite (astype_int_literal Object z Hc). simpl. rewrite (IH Hi Hd). reflexivity.
  - destruct (is_nan x); simpl in *; [apply IH; assumption |].
    rewrite astype_int_decimal_object. reflexivity.
Qed.

(** In a numeric column, the first infinity stops the cast. *)
Lemma masked_rows_raise_infinite (dt : dtype) (rows : list line) :
  dt <> Object ->
  infinite_year rows = true ->
  astype_year dt (filter (fun r : line => notna (to_numeric (fst r))) rows)
    = inl (ValueError "Cannot convert non-finite values (NA or inf) to integer").
Proof.
  unfold astype_year, infinite_year. intros Ho.
  induction rows as [|[c v] t IH]; simpl; intros Hf; [discriminate |].
  destruct c as [z|x| |s]; simpl in *; try (apply IH; assumption).
  - destruct (astype_int_literal_numeric dt z Ho) as [y ->]. simpl.
    rewrite (IH Hf). reflexivity.
  - destruct (is_nan x) eqn:En; simpl in *; [apply IH; assumption |].
    destruct (is_finite x) eqn:Ex; simpl in *.
    + rewrite (astype_int_decimal dt x Ho Ex). simpl. rewrite (IH Hf). reflexivity.
    + rewrite (astype_int_infinite dt x Ho Ex). reflexivity.
Qed.

Local Transparent astype_int.

Lemma infer_dtype_object (rows : list line) :
  infer_dtype (map fst rows) = Object -> decimal_year rows = true ->
  text_year rows = true.
Proof.
  unfold infer_dtype, decimal_year, text_year. intros Ho Hd.
  assert (Hf : forallb is_float (map fst rows) = false).
  { destruct (map fst rows) as [|c col] eqn:Em.
    - destruct rows; [discriminate Hd | discriminate Em].
    - rewrite <- Em in *.
      assert (Hn : forallb is_int (map fst rows) = false).
      { clear - Hd. induction rows as [|h u IH]; simpl in *; [discriminate |].
        destruct (fst h); simpl in *; auto. }
      rewrite Hn in Ho.
      destruct (forallb is_float (map fst rows)); [discriminate | reflexivity]. }
  clear Ho Hd. induction rows as [|h u IH]; simpl in *; [discriminate |].
  destruct (fst h); simpl in *; auto.
Qed.

Lemma text_year_object (rows : list line) :
  text_year rows = true -> infer_dtype (map fst rows) = Object.
Proof.
  unfold infer_dtype, text_year. intros Ht.
  assert (Hi : forallb is_int (map fst rows) = false
               /\ forallb is_float (map fst rows) = false).
  { induction rows as [|h u IH]; simpl in *; [discriminate |].
    destruct (fst h); simpl in *; auto;
      destruct (IH Ht) as [H1 H2]; rewrite ?H1, ?H2; auto. }
  destruct Hi as [H1 H2]. rewrite H1, H2.
  destruct (map fst rows); reflexivity.
Qed.

Lemma infinite_is_decimal (rows : list line) :
  infinite_year rows = true -> decimal_year rows = true.
Proof.
  unfold infinite_year, decimal_year. induction rows as [|h t IH]; simpl; [discriminate |].
  intros H. apply orb_true_iff in H as [H|H]; apply orb_true_iff.
  - left. destruct (fst h); simpl in *; try discriminate.
    apply andb_true_iff in H. tauto.
  - right. apply IH, H.
Qed.

(** The inflation loader on the rows of any file of seven lines or more
    whose integer years come out of the cast as they are written. *)
Lemma load_cpih_exact (f : csv) (rows : list line) :
  read_csv 6 f = inr rows ->
  years_kept (infer_dtype (map fst rows)) rows = true ->
  load_cpih f =
    if text_year rows && decimal_year rows
    then inl (ValueError "invalid literal for int() with base 10")
    else if infinite_year rows
    then inl (ValueError "Cannot convert non-finite values (NA or inf) to integer")
    else inr (sort_index (loaded_rows rows)).
Proof.
  intros Hr Hi. unfold load_cpih. rewrite Hr. simpl.
  destruct (text_year rows && decimal_year rows) eqn:E.
  - apply andb_true_iff in E as [Ht Hd].
    rewrite (text_year_object rows Ht) in *.
    rewrite (masked_rows_raise rows Hi Hd). reflexivity.
  - assert (Ho : infer_dtype (map fst rows) = Object -> decimal_year rows = false).
    { intros Ho. destruct (decimal_year rows) eqn:Hd; [| reflexivity].
      rewrite (infer_dtype_object rows Ho Hd) in E. discriminate. }
    destruct (infinite_year rows) eqn:Ef.
    + rewrite (masked_rows_raise_infinite _ rows); try assumption; [reflexivity |].
      intros Hobj. rewrite (infinite_is_decimal rows Ef) in Ho.
      specialize (Ho Hobj). discriminate.
    + destruct (masked_rows_loaded (infer_dtype (map fst rows)) rows Hi Ho Ef)
        as (df & Hdf & Hk).
      rewrite Hdf. simpl. rewrite Hk. reflexivity.
Qed.














(* ================================================================== *)
(** ** The intermediate inflation table (C4) *)
(* ================================================================== *)




(* ================================================================== *)
(** ** The GDP loader (C3) *)
(* ================================================================== *)

(** C3 at a GDP file that ends in a footnote line.  The inflation loader
    masks such a row out; the GDP loader casts the year column as read,
    and the load raises: there is no GDP table and no aligned table. *)
Theorem gdp_footnote_fails_load :
  load_gdp gdp_with_footnote
    = inl (ValueError "invalid literal for int() with base 10: 'Source: ONS'")
  /\ load_gdp gdp_2010_2020
       = inr [ (2010, 2.2%float); (2011, 1.1%float); (2012, 1.5%float); (2013, 1.8%float);
               (2014, 3.2%float); (2015, 2.2%float); (2016, 1.9%float); (2017, 2.7%float);
               (2018, 1.4%float); (2019, 1.6%float); (2020, (-10.4)%float) ]
  /\ load_cpih (ons_preamble ++ skipn 1 gdp_with_footnote)
       = load_gdp gdp_2010_2020.
Proof. repeat split; reflexivity. Qed.

(* ================================================================== *)
(** ** The index of the aligned table (C2) *)
(* ================================================================== *)



Lemma nodup_years_2015_2016 : NoDup [2015; 2016].
Proof.
  repeat constructor; simpl; intros H;
    repeat (destruct H as [H|H]; [discriminate |]); exact H.
Defined.



(** The scenario of the specification: inflation for 2015-2022 and GDP
    for 2010-2020 align on the six years 2015-2020. *)
Example scenario_aligned_years :
  (let* tc := load_cpih cpih_2015_2022 in
   let* tg := load_gdp gdp_2010_2020 in
   inr (index (join_inner tc tg)))
  = inr [2015; 2016; 2017; 2018; 2019; 2020].
Proof. reflexivity. Qed.
(* ================================================================== *)
(** ** Forecast years *)
(* ================================================================== *)

(** [range(y + 1, y + 1 + n)] is [y + 1, ..., y + n]. *)
Lemma range_after (y n : Z) :
  range (y + 1) (y + 1 + n) = map (fun i => y + Z.of_nat i) (seq 1 (Z.to_nat n)).
Proof.
  unfold range. replace (y + 1 + n - (y + 1)) with n by lia.
  rewrite <- seq_shift, map_map. apply map_ext. intros i. lia.
Qed.

Lemma years_after_length (y : Z) (n : nat) :
  List.length (map (fun i => y + Z.of_nat i) (seq 1 n)) = n.
Proof. rewrite length_map, length_seq. reflexivity. Qed.

Lemma years_after_nth (y : Z) (n i : nat) :
  (i < n)%nat ->
  nth_error (map (fun i => y + Z.of_nat i) (seq 1 n)) i = Some (y + 1 + Z.of_nat i).
Proof.
  intros Hi. rewrite nth_error_map, nth_error_seq.
  destruct (Nat.ltb_spec i n); [| lia]. simpl. f_equal. lia.
Qed.

Lemma years_from_sorted (y : Z) (n a : nat) :
  StronglySorted Z.lt (map (fun i => y + Z.of_nat i) (seq a n)).
Proof.
  revert a. induction n as [|n IH]; intros a; simpl.
  - constructor.
  - constructor; [apply IH |].
    apply Forall_forall. intros x Hx. apply in_map_iff in Hx as (i & <- & Hi).
    apply in_seq in Hi. lia.
Qed.

Lemma strictly_sorted_nodup (l : list Z) : StronglySorted Z.lt l -> NoDup l.
Proof.
  induction 1 as [|x t Ht IH Hx]; constructor; [| exact IH].
  intros Hin. rewrite Forall_forall in Hx. specialize (Hx x Hin). lia.
Qed.

Lemma last_index_nonempty (df : list row) (y : Z) :
  last_index df = inr y -> df <> [] /\ In y (index df).
Proof.
  unfold last_index. destruct (rev (index df)) as [|z t] eqn:E; [discriminate |].
  intros H. inversion H; subst. split.
  - intros ->. discriminate.
  - apply in_rev. rewrite E. left. reflexivity.
Qed.

Lemma last_index_last (df : list row) (init : list Z) (y : Z) :
  index df = init ++ [y] -> last_index df = inr y.
Proof.
  intros H. unfold last_index. rewrite H, rev_app_distr. reflexivity.
Qed.

Lemma last_index_inv (df : list row) (y : Z) :
  last_index df = inr y -> exists init, index df = init ++ [y].
Proof.
  unfold last_index. destruct (rev (index df)) as [|z t] eqn:E; [discriminate |].
  intros H. inversion H; subst. exists (rev t).
  rewrite <- (rev_involutive (index df)), E. reflexivity.
Qed.

(** Line 63 away from the ends of the 64-bit range. *)
Lemma forecast_years_in_range (df : list row) (y n : Z) :
  last_index df = inr y ->
  Int64.int64 (y + 1) = true -> Int64.int64 (y + 1 + n) = true ->
  forecast_years df n
  = inr (map (fun i => y + Z.of_nat i) (seq 1 (Z.to_nat n))).
Proof.
  intros Hl H1 H2. unfold forecast_years. rewrite Hl. simpl.
  rewrite (add_int64 y 1 H1), (add_int64 (y + 1) n H2), range_after. reflexivity.
Qed.

Lemma sorted_snoc_max (a : list Z) (y : Z) :
  StronglySorted Z.le (a ++ [y]) -> Forall (fun x => x <= y) (a ++ [y]).
Proof.
  induction a as [|x t IH]; simpl; intros Hs.
  - constructor; [lia | constructor].
  - inversion Hs as [|? ? Ht Hx]; subst. constructor; [| apply IH, Ht].
    rewrite Forall_forall in Hx. apply Hx. apply in_or_app. right. left. reflexivity.
Qed.

Lemma load_cpih_sorted (f : csv) (t : list (Z * float)) :
  load_cpih f = inr t -> StronglySorted Z.le (map fst t).
Proof.
  unfold load_cpih. destruct (read_csv 6 f) as [e|rows]; [discriminate |]. simpl.
  destruct (astype_year _ _) as [e|df]; [discriminate |]. simpl.
  intros H. inversion H. apply sort_index_strongly_sorted.
Qed.

Lemma load_gdp_sorted (g : csv) (t : list (Z * float)) :
  load_gdp g = inr t -> StronglySorted Z.le (map fst t).
Proof.
  unfold load_gdp. destruct (read_csv 0 g) as [e|rows]; [discriminate |]. simpl.
  destruct (astype_year _ _) as [e|df]; [discriminate |]. simpl.
  intros H. inversion H. apply sort_index_strongly_sorted.
Qed.

Lemma reindex_length (fr : forecast_results) (years : list Z) :
  List.length (reindex fr years) = List.length years.
Proof. unfold reindex. apply length_map. Qed.

Lemma last_index_empty :
  last_index [] = inl (IndexError "index -1 is out of bounds for axis 0 with size 0").
Proof. reflexivity. Qed.

(* ================================================================== *)
(** ** The run, stage by stage *)
(* ================================================================== *)

Section Run.

Variable arima_forecast : list float -> Z * Z * Z -> Z -> result (list float).
Variable sarimax_forecast :
  list float -> list float -> Z * Z * Z -> Z -> list float -> result forecast_results.

Local Abbreviation pipeline' := (pipeline arima_forecast sarimax_forecast).
Local Abbreviation run' := (run arima_forecast sarimax_forecast).

Lemma emit_all_page (l page : list element) :
  emit_all l page = (inr tt, page ++ l).
Proof.
  revert page. induction l as [|x t IH]; intros page; simpl.
  - unfold ret. rewrite app_nil_r. reflexivity.
  - unfold bind, emit. rewrite IH, <- app_assoc. reflexivity.
Qed.

(** The pipeline unfolded: where each stage can raise and what is on the
    page at that point. *)
Lemma pipeline_steps (cfg : config) (c g : csv) (page : list element) :
  pipeline' cfg c g page =
  match load_cpih c with
  | inl e => (inl e, page)
  | inr tc =>
  match load_gdp g with
  | inl e => (inl e, page)
  | inr tg =>
  let df := join_inner tc tg in
  let shown := page ++ historical cfg df in
  match arima_forecast (map GDP_Growth df) (pg cfg, dg cfg, qg cfg) (n_years cfg) with
  | inl e => (inl e, shown)
  | inr gdp_forecast =>
  match sarimax_forecast (map CPIH df) (map GDP_Growth df)
          (p cfg, d cfg, q cfg) (n_years cfg) gdp_forecast with
  | inl e => (inl e, shown)
  | inr forecast_res =>
  match forecast_years df (n_years cfg) with
  | inl e => (inl e, shown)
  | inr years =>
  match plot_forecast df years (predictions forecast_res) with
  | inl e => (inl e, shown ++ [Subheader "CPIH Forecast"])
  | inr fig =>
      (inr tt, shown ++ [ Subheader "CPIH Forecast"; Pyplot fig;
                          Subheader "Forecast Table";
                          Dataframe years (reindex forecast_res years) ])
  end end end end end end.
Proof.
  unfold pipeline, bind, lift, ret.
  destruct (load_cpih c) as [e|tc]; [reflexivity |].
  destruct (load_gdp g) as [e|tg]; [reflexivity |].
  cbv zeta. unfold emit at 1 2. rewrite emit_all_page.
  replace (((page ++ [Subheader "Historical Data"]) ++ [LineChart (join_inner tc tg)])
             ++ widgets cfg)
    with (page ++ historical cfg (join_inner tc tg))
    by (unfold historical; rewrite <- !app_assoc; reflexivity).
  destruct (arima_forecast _ _ _) as [e|gf]; [reflexivity |].
  destruct (sarimax_forecast _ _ _ _ _) as [e|fr]; [reflexivity |].
  destruct (forecast_years _ _) as [e|ys]; [reflexivity |].
  unfold emit. destruct (plot_forecast _ _ _) as [e|fig]; [reflexivity |].
  rewrite <- !app_assoc. reflexivity.
Qed.

(** The script with both files present: the handler turns an exception
    of the pipeline into one message under what was rendered. *)
Lemma run_both_files (cfg : config) (c g : csv) :
  run' cfg (Some c) (Some g) =
  match pipeline' cfg c g page_header with
  | (inl e, out) => (inr tt, out ++ [ErrorMsg ("Error: " ++ str e)%string])
  | (inr _, out) => (inr tt, out)
  end.
Proof.
  unfold run, script, bind. rewrite emit_all_page. simpl app.
  unfold try_except. destruct (pipeline _ _ cfg c g page_header) as [[e|[]] out];
    reflexivity.
Qed.

End Run.

(* ================================================================== *)
(** ** Failed and successful runs *)
(* ================================================================== *)

Section Page.

Variable arima_forecast : list float -> Z * Z * Z -> Z -> result (list float).
Variable sarimax_forecast :
  list float -> list float -> Z * Z * Z -> Z -> list float -> result forecast_results.

Local Abbreviation pipeline' := (pipeline arima_forecast sarimax_forecast).
Local Abbreviation run' := (run arima_forecast sarimax_forecast).

(** Where a failed pipeline stopped: in a loader, with nothing rendered,
    or after the historical chart and the widgets. *)
Lemma pipeline_failed (cfg : config) (c g : csv) (e : exn) (out : list element) :
  pipeline' cfg c g page_header = (inl e, out) ->
  (out = page_header /\ (load_cpih c = inl e \/ load_gdp g = inl e))
  \/ exists tc tg,
       load_cpih c = inr tc /\ load_gdp g = inr tg
       /\ (out = page_header ++ historical cfg (join_inner tc tg)
           \/ out = (page_header ++ historical cfg (join_inner tc tg))
                      ++ [Subheader "CPIH Forecast"]).
Proof.
  rewrite pipeline_steps.
  destruct (load_cpih c) as [e1|tc].
  { intros H; inversion H; subst. left. auto. }
  destruct (load_gdp g) as [e2|tg].
  { intros H; inversion H; subst. left. auto. }
  cbv zeta. intros H. right. exists tc, tg. split; [reflexivity |]. split; [reflexivity |].
  destruct (arima_forecast _ _ _) as [e3|gf]; [inversion H; auto |].
  destruct (sarimax_forecast _ _ _ _ _) as [e4|fr]; [inversion H; auto |].
  destruct (forecast_years _ _) as [e5|ys]; [inversion H; auto |].
  destruct (plot_forecast _ _ _) as [e6|fig]; [inversion H; auto | discriminate].
Qed.

(** A successful pipeline rendered everything, with the forecast years
    computed from the last index entry. *)
Lemma pipeline_succeeded (cfg : config) (c g : csv) (out : list element) :
  pipeline' cfg c g page_header = (inr tt, out) ->
  exists tc tg years forecast_res fig,
    load_cpih c = inr tc /\ load_gdp g = inr tg
    /\ forecast_years (join_inner tc tg) (n_years cfg) = inr years
    /\ plot_forecast (join_inner tc tg) years (predictions forecast_res) = inr fig
    /\ out = (page_header ++ historical cfg (join_inner tc tg))
               ++ [ Subheader "CPIH Forecast"; Pyplot fig;
                    Subheader "Forecast Table";
                    Dataframe years (reindex forecast_res years) ].
Proof.
  rewrite pipeline_steps.
  destruct (load_cpih c) as [e1|tc]; [discriminate |].
  destruct (load_gdp g) as [e2|tg]; [discriminate |].
  cbv zeta.
  destruct (arima_forecast _ _ _) as [e3|gf]; [discriminate |].
  destruct (sarimax_forecast _ _ _ _ _) as [e4|fr]; [discriminate |].
  destruct (forecast_years _ _) as [e5|ys] eqn:Ey; [discriminate |].
  destruct (plot_forecast _ _ _) as [e6|fig] eqn:Ep; [discriminate |].
  intros H. inversion H; subst.
  exists tc, tg, ys, fr, fig. repeat split; assumption.
Qed.

Lemma historical_no_forecast (cfg : config) (df : list row) :
  filter is_forecast_output (page_header ++ historical cfg df) = []
  /\ filter is_error (page_header ++ historical cfg df) = [].
Proof. split; reflexivity. Qed.

(** An empty aligned table: the historical part is rendered and the run
    then fails, in a fit or at the latest at [df.index[-1]]. *)
Lemma empty_table_run (cfg : config) (c g : csv) (tc tg : list (Z * float)) :
  load_cpih c = inr tc -> load_gdp g = inr tg -> join_inner tc tg = [] ->
  exists e,
    run' cfg (Some c) (Some g)
      = (inr tt, (page_header ++ historical cfg [])
                   ++ [ErrorMsg ("Error: " ++ str e)%string])
    /\ (arima_forecast [] (pg cfg, dg cfg, qg cfg) (n_years cfg) = inl e
        \/ (exists gf,
              arima_forecast [] (pg cfg, dg cfg, qg cfg) (n_years cfg) = inr gf
              /\ sarimax_forecast [] [] (p cfg, d cfg, q cfg) (n_years cfg) gf = inl e)
        \/ e = IndexError "index -1 is out of bounds for axis 0 with size 0").
Proof.
  intros Hc Hg Hj. rewrite run_both_files, pipeline_steps, Hc, Hg. cbv zeta.
  rewrite Hj. simpl map.
  destruct (arima_forecast _ _ _) as [e3|gf] eqn:Ea.
  { exists e3. split; [reflexivity | left; reflexivity]. }
  destruct (sarimax_forecast _ _ _ _ _) as [e4|fr] eqn:Es.
  { exists e4. split; [reflexivity |]. right; left. exists gf. split; [reflexivity | exact Es]. }
  exists (IndexError "index -1 is out of bounds for axis 0 with size 0").
  split; [reflexivity | right; right; reflexivity].
Qed.

(* ------------------------------------------------------------------ *)
(** *** C8: every failure is caught *)

(** C8.  No exception leaves a run, whatever the files, the settings and
    the behaviour of the two fits; and when a stage of the pipeline
    raises [e], be it a loader, a fit or the construction of the
    forecast, the run ends normally with the message built from [e] as
    the last element of the page and the only error message on it. *)
Theorem every_failure_caught (cfg : config) (cpih_file gdp_file : option csv) :
  fst (run' cfg cpih_file gdp_file) = inr tt
  /\ forall c g e out,
       cpih_file = Some c -> gdp_file = Some g ->
       pipeline' cfg c g page_header = (inl e, out) ->
       run' cfg cpih_file gdp_file
         = (inr tt, out ++ [ErrorMsg ("Error: " ++ str e)%string])
       /\ filter is_error (snd (run' cfg cpih_file gdp_file))
            = [ErrorMsg ("Error: " ++ str e)%string].
Proof.
  split.
  - destruct cpih_file as [c|], gdp_file as [g|]; try reflexivity.
    rewrite run_both_files.
    destruct (pipeline _ _ cfg c g page_header) as [[e|u] out]; reflexivity.
  - intros c g e out -> -> Hp. rewrite run_both_files, Hp. split; [reflexivity |].
    simpl snd. rewrite filter_app.
    apply pipeline_failed in Hp as [[-> _]|(tc & tg & _ & _ & [->| ->])];
      reflexivity.
Qed.

(* ------------------------------------------------------------------ *)
(** *** C1: what a failed run shows *)

(** C1, as the code has it.  In every run in which a stage fails, the
    page ends with the one error message, and neither the forecast chart
    nor the forecast table is on it.  What was rendered before the
    failing stage stays: nothing when a loader fails, and the historical
    chart with its heading and the widgets (and the forecast heading,
    when plotting fails) when a later stage does. *)
Theorem failed_run_page (cfg : config) (c g : csv) (e : exn) (out : list element) :
  pipeline' cfg c g page_header = (inl e, out) ->
  run' cfg (Some c) (Some g)
    = (inr tt, out ++ [ErrorMsg ("Error: " ++ str e)%string])
  /\ filter is_forecast_output out = []
  /\ filter is_error out = []
  /\ ((out = page_header /\ (load_cpih c = inl e \/ load_gdp g = inl e))
      \/ exists tc tg,
           load_cpih c = inr tc /\ load_gdp g = inr tg
           /\ In (LineChart (join_inner tc tg)) out
           /\ (out = page_header ++ historical cfg (join_inner tc tg)
               \/ out = (page_header ++ historical cfg (join_inner tc tg))
                          ++ [Subheader "CPIH Forecast"])).
Proof.
  intros Hp. split; [rewrite run_both_files, Hp; reflexivity |].
  apply pipeline_failed in Hp as [[-> Hl]|(tc & tg & Hc & Hg & Ho)].
  - repeat split; try reflexivity. left. split; [reflexivity | exact Hl].
  - assert (Hin : In (LineChart (join_inner tc tg)) out).
    { destruct Ho as [->| ->]; rewrite ?in_app_iff; unfold historical; simpl; tauto. }
    destruct (historical_no_forecast cfg (join_inner tc tg)) as [Hf He].
    split; [| split].
    + destruct Ho as [->| ->]; [exact Hf | rewrite filter_app, Hf; reflexivity].
    + destruct Ho as [->| ->]; [exact He | rewrite filter_app, He; reflexivity].
    + right. exists tc, tg. auto.
Qed.

(* ------------------------------------------------------------------ *)
(** *** C7: no overlapping year *)

(** C7, as the code has it.  When the two loaded tables share no year,
    the join is the empty table and raises nothing; the historical
    heading, the chart of the empty table and the widgets are rendered,
    and the run then fails, in a fit or at the latest when the last
    historical year is read, with one message.  No forecast chart and no
    forecast table is produced. *)
Theorem no_overlap_run (cfg : config) (c g : csv) (tc tg : list (Z * float)) :
  load_cpih c = inr tc -> load_gdp g = inr tg ->
  (forall y, In y (map fst tc) -> In y (map fst tg) -> False) ->
  join_inner tc tg = []
  /\ exists e,
       run' cfg (Some c) (Some g)
         = (inr tt, (page_header ++ historical cfg [])
                      ++ [ErrorMsg ("Error: " ++ str e)%string])
       /\ filter is_forecast_output (snd (run' cfg (Some c) (Some g))) = []
       /\ (arima_forecast [] (pg cfg, dg cfg, qg cfg) (n_years cfg) = inl e
           \/ (exists gf,
                 arima_forecast [] (pg cfg, dg cfg, qg cfg) (n_years cfg) = inr gf
                 /\ sarimax_forecast [] [] (p cfg, d cfg, q cfg) (n_years cfg) gf
                    = inl e)
           \/ e = IndexError "index -1 is out of bounds for axis 0 with size 0").
Proof.
  intros Hc Hg Hd. pose proof (join_disjoint tc tg Hd) as Hj.
  split; [exact Hj |].
  destruct (empty_table_run cfg c g tc tg Hc Hg Hj) as (e & Hr & He).
  exists e. split; [exact Hr |]. split; [rewrite Hr; reflexivity | exact He].
Qed.

(* ------------------------------------------------------------------ *)
(** *** C5: the forecast years *)

(** C5, as the code has it.  In every successful run the aligned table
    is not empty; with [Y] the last year of its index, which is also its
    largest, and [N] the horizon, as long as [Y + 1] and [Y + 1 + N] are
    64-bit integers, the forecast years, as plotted and as the index of
    the forecast table, are [Y+1, Y+2, ..., Y+N]: the i-th is [Y+1+i],
    they are strictly ascending and without duplicates, there are [N] of
    them, the chart plots one forecast value for each and the table has
    one row for each. *)
Theorem forecast_years_contiguous (cfg : config) (c g : csv) (out : list element)
    (tc tg : list (Z * float)) (init : list Z) (Y : Z) :
  pipeline' cfg c g page_header = (inr tt, out) ->
  load_cpih c = inr tc -> load_gdp g = inr tg ->
  index (join_inner tc tg) = init ++ [Y] ->
  Int64.int64 (Y + 1) = true ->
  Int64.int64 (Y + 1 + n_years cfg) = true ->
  Forall (fun y => y <= Y) (index (join_inner tc tg))
  /\ exists forecast_res fig,
       let years := map (fun i => Y + Z.of_nat i) (seq 1 (Z.to_nat (n_years cfg))) in
       out = (page_header ++ historical cfg (join_inner tc tg))
               ++ [ Subheader "CPIH Forecast"; Pyplot fig;
                    Subheader "Forecast Table";
                    Dataframe years (reindex forecast_res years) ]
       /\ fc_x fig = years
       /\ fc_y fig = map mean (predictions forecast_res)
       /\ (forall i, (i < Z.to_nat (n_years cfg))%nat ->
             nth_error years i = Some (Y + 1 + Z.of_nat i))
       /\ List.length years = Z.to_nat (n_years cfg)
       /\ List.length (fc_y fig) = List.length years
       /\ List.length (reindex forecast_res years) = List.length years
       /\ StronglySorted Z.lt years
       /\ NoDup years.
Proof.
  intros Hp Hc Hg Hi H1 H2. split.
  { rewrite Hi. apply sorted_snoc_max. rewrite <- Hi.
    apply join_sorted, (load_cpih_sorted c tc Hc). }
  apply pipeline_succeeded in Hp
    as (tc' & tg' & ys & fr & fig & Hc' & Hg' & Hy & Hf & Ho).
  rewrite Hc in Hc'. rewrite Hg in Hg'.
  inversion Hc'; subst tc'. inversion Hg'; subst tg'. clear Hc' Hg'.
  rewrite (forecast_years_in_range _ Y (n_years cfg) (last_index_last _ init Y Hi) H1 H2)
    in Hy.
  assert (Hys : ys = map (fun i => Y + Z.of_nat i) (seq 1 (Z.to_nat (n_years cfg))))
    by (inversion Hy; reflexivity).
  unfold plot_forecast in Hf.
  destruct (Nat.eqb_spec (List.length ys) (List.length (predictions fr)))
    as [Hlen|]; [| discriminate].
  assert (Hx : fc_x fig = ys /\ fc_y fig = map mean (predictions fr))
    by (inversion Hf; split; reflexivity).
  destruct Hx as [Hx Hm]. clear Hf Hy. subst ys.
  exists fr, fig. cbv zeta.
  split; [exact Ho |]. split; [exact Hx |]. split; [exact Hm |].
  split; [intros i Hlt; apply years_after_nth, Hlt |].
  split; [apply years_after_length |].
  split; [rewrite Hm, length_map; symmetry; exact Hlen |].
  split; [apply reindex_length |].
  split; [apply years_from_sorted | apply strictly_sorted_nodup, years_from_sorted].
Qed.

(* ------------------------------------------------------------------ *)
(** *** C10: the guard on the two uploads *)

(** C10.  While either file is missing, the body of the guard does not
    run: the page is the title, the introduction and the two uploaders
    that every run renders, with no chart, no table and no error
    message, and it is the same whatever the file that is present
    holds. *)
Theorem nothing_until_both_files (cfg : config) (cpih_file gdp_file : option csv) :
  cpih_file = None \/ gdp_file = None ->
  run' cfg cpih_file gdp_file = (inr tt, page_header)
  /\ filter (fun x => is_chart x || is_table x || is_error x) page_header = [].
Proof.
  intros [-> | ->]; split; try reflexivity.
  destruct cpih_file; reflexivity.
Qed.

End Page.

(* ================================================================== *)
(** ** The theorems on sample runs *)
(* ================================================================== *)

(** A target model differenced twice on two observations: the fit
    raises, the handler catches it, and the message is the one error on
    the page. *)
Lemma every_failure_caught_witness :
  run sample_arima sample_sarimax twice_differenced
      (Some cpih_2015_2016) (Some gdp_2015_2016)
    = (inr tt,
       (page_header ++ historical twice_differenced two_rows)
         ++ [ErrorMsg "Error: too few observations for the differencing order"])
  /\ filter is_error
       (snd (run sample_arima sample_sarimax twice_differenced
               (Some cpih_2015_2016) (Some gdp_2015_2016)))
     = [ErrorMsg "Error: too few observations for the differencing order"].
Proof.
  apply (proj2 (every_failure_caught sample_arima sample_sarimax twice_differenced
                  (Some cpih_2015_2016) (Some gdp_2015_2016))
           cpih_2015_2016 gdp_2015_2016
           (LibraryError "too few observations for the differencing order")
           (page_header ++ historical twice_differenced two_rows));
    reflexivity.
Defined.

(** A GDP file that fails to load: the page holds the message and
    nothing else of the pipeline. *)
Lemma failed_run_page_witness :
  run sample_arima sample_sarimax default_config
      (Some cpih_2015_2022) (Some gdp_with_footnote)
    = (inr tt,
       page_header
         ++ [ErrorMsg "Error: invalid literal for int() with base 10: 'Source: ONS'"]).
Proof.
  apply (failed_run_page sample_arima sample_sarimax default_config
           cpih_2015_2022 gdp_with_footnote
           (ValueError "invalid literal for int() with base 10: 'Source: ONS'")
           page_header).
  reflexivity.
Defined.

(** C1 as worded fails as soon as the failing stage comes after line 35.
    With a GDP file that holds no data row the aligned table is empty;
    with two observations and a model differenced twice the fit raises.
    In both runs the historical chart is on the page above the error
    message. *)
Lemma failed_run_shows_chart :
  (fst (pipeline sample_arima sample_sarimax default_config
          cpih_2015_2022 gdp_title_only page_header)
     = inl (LibraryError "zero-size array")
   /\ filter (fun x => is_chart x || is_table x)
        (snd (run sample_arima sample_sarimax default_config
                (Some cpih_2015_2022) (Some gdp_title_only)))
      = [LineChart []]
   /\ filter is_error
        (snd (run sample_arima sample_sarimax default_config
                (Some cpih_2015_2022) (Some gdp_title_only)))
      = [ErrorMsg "Error: zero-size array"])
  /\ (fst (pipeline sample_arima sample_sarimax twice_differenced
             cpih_2015_2016 gdp_2015_2016 page_header)
        = inl (LibraryError "too few observations for the differencing order")
      /\ filter (fun x => is_chart x || is_table x)
           (snd (run sample_arima sample_sarimax twice_differenced
                   (Some cpih_2015_2016) (Some gdp_2015_2016)))
         = [LineChart two_rows]).
Proof. repeat split; reflexivity. Qed.

(** Inflation for 2015-2016 and GDP for 2010-2011. *)
Lemma no_overlap_run_witness :
  join_inner [(2015, 0.4%float); (2016, 1.0%float)] [(2010, 2.2%float); (2011, 1.1%float)] = []
  /\ exists e,
       run sample_arima sample_sarimax default_config
           (Some cpih_2015_2016) (Some gdp_2010_2011)
         = (inr tt, (page_header ++ historical default_config [])
                      ++ [ErrorMsg ("Error: " ++ str e)%string])
       /\ filter is_forecast_output
            (snd (run sample_arima sample_sarimax default_config
                    (Some cpih_2015_2016) (Some gdp_2010_2011))) = []
       /\ (sample_arima [] (pg default_config, dg default_config, qg default_config)
             (n_years default_config) = inl e
           \/ (exists gf,
                 sample_arima [] (pg default_config, dg default_config, qg default_config)
                   (n_years default_config) = inr gf
                 /\ sample_sarimax [] [] (p default_config, d default_config, q default_config)
                      (n_years default_config) gf = inl e)
           \/ e = IndexError "index -1 is out of bounds for axis 0 with size 0").
Proof.
  apply (no_overlap_run sample_arima sample_sarimax default_config
           cpih_2015_2016 gdp_2010_2011
           [(2015, 0.4%float); (2016, 1.0%float)] [(2010, 2.2%float); (2011, 1.1%float)]).
  - reflexivity.
  - reflexivity.
  - simpl. intros y Hc Hg. lia.
Defined.

(** C7 as worded fails on the same two files: the join returns the empty
    table and raises nothing, the chart of that table is rendered, and
    the failure that ends the run is raised by the GDP fit. *)
Lemma no_overlap_shows_chart :
  load_cpih cpih_2015_2016 = inr [(2015, 0.4%float); (2016, 1.0%float)]
  /\ load_gdp gdp_2010_2011 = inr [(2010, 2.2%float); (2011, 1.1%float)]
  /\ run sample_arima sample_sarimax default_config
         (Some cpih_2015_2016) (Some gdp_2010_2011)
       = (inr tt, (page_header ++ historical default_config [])
                    ++ [ErrorMsg "Error: zero-size array"])
  /\ filter is_chart
       (snd (run sample_arima sample_sarimax default_config
               (Some cpih_2015_2016) (Some gdp_2010_2011)))
     = [LineChart []].
Proof. repeat split; reflexivity. Qed.

(** The scenario of the specification: aligned years 2015-2020 and
    horizon 3. *)
Lemma forecast_years_contiguous_witness :
  Forall (fun y => y <= 2020)
         (index (join_inner (sort_index (spec_kept_rows (skipn 7 cpih_2015_2022)))
                            (sort_index (spec_kept_rows (skipn 1 gdp_2010_2020)))))
  /\ exists forecast_res fig,
       let years := map (fun i => 2020 + Z.of_nat i) (seq 1 (Z.to_nat (n_years horizon_3))) in
       snd (pipeline sample_arima sample_sarimax horizon_3
              cpih_2015_2022 gdp_2010_2020 page_header)
         = (page_header
              ++ historical horizon_3
                   (join_inner (sort_index (spec_kept_rows (skipn 7 cpih_2015_2022)))
                               (sort_index (spec_kept_rows (skipn 1 gdp_2010_2020)))))
             ++ [ Subheader "CPIH Forecast"; Pyplot fig;
                  Subheader "Forecast Table";
                  Dataframe years (reindex forecast_res years) ]
       /\ fc_x fig = years
       /\ fc_y fig = map mean (predictions forecast_res)
       /\ (forall i, (i < Z.to_nat (n_years horizon_3))%nat ->
             nth_error years i = Some (2020 + 1 + Z.of_nat i))
       /\ List.length years = Z.to_nat (n_years horizon_3)
       /\ List.length (fc_y fig) = List.length years
       /\ List.length (reindex forecast_res years) = List.length years
       /\ StronglySorted Z.lt years
       /\ NoDup years.
Proof.
  apply (forecast_years_contiguous sample_arima sample_sarimax horizon_3
           cpih_2015_2022 gdp_2010_2020 _ _ _ [2015; 2016; 2017; 2018; 2019] 2020);
    reflexivity.
Defined.

(** C5 as worded fails at the end of the 64-bit range.  With years that
    end at 2^63 - 1 the run succeeds, the addition of line 63 wraps, and
    the forecast years that are plotted and that index the table start
    at -2^63. *)
Lemma forecast_years_wrap :
  (let* tc := load_cpih cpih_last_int64 in
   let* tg := load_gdp gdp_last_int64 in
   inr (index (join_inner tc tg)))
  = inr [9223372036854775805; 9223372036854775806; 9223372036854775807]
  /\ fst (pipeline sample_arima sample_sarimax horizon_3
            cpih_last_int64 gdp_last_int64 page_header) = inr tt
  /\ (let* tc := load_cpih cpih_last_int64 in
      let* tg := load_gdp gdp_last_int64 in
      forecast_years (join_inner tc tg) 3)
     = inr [-9223372036854775808; -9223372036854775807; -9223372036854775806]
  /\ exists fig table,
       filter is_forecast_output
         (snd (run sample_arima sample_sarimax horizon_3
                 (Some cpih_last_int64) (Some gdp_last_int64)))
       = [ Pyplot fig;
           Dataframe [-9223372036854775808; -9223372036854775807; -9223372036854775806]
                     table ]
       /\ fc_x fig = [-9223372036854775808; -9223372036854775807; -9223372036854775806].
Proof.
  split; [reflexivity |]. split; [reflexivity |]. split; [reflexivity |].
  eexists _, _. split; reflexivity.
Qed.

Example scenario_forecast_years :
  (let* tc := load_cpih cpih_2015_2022 in
   let* tg := load_gdp gdp_2010_2020 in
   forecast_years (join_inner tc tg) 3)
  = inr [2021; 2022; 2023].
Proof. reflexivity. Qed.

(** One file uploaded, and one whose load would raise: nothing of the
    pipeline runs. *)
Lemma nothing_until_both_files_witness :
  run sample_arima sample_sarimax default_config (Some cpih_decimal_year) None
    = (inr tt, page_header)
  /\ filter (fun x => is_chart x || is_table x || is_error x) page_header = [].
Proof.
  apply (nothing_until_both_files sample_arima sample_sarimax default_config
           (Some cpih_decimal_year) None).
  right. reflexivity.
Defined.

(* ================================================================== *)
(** ** The loaders on any file *)
(* ================================================================== *)

Lemma read_csv_after (n : nat) (pre rows : list line) :
  List.length pre = S n -> read_csv n (pre ++ rows) = inr rows.
Proof.
  intros Hl. unfold read_csv. rewrite skipn_app, Hl.
  replace (n - S n)%nat with 0%nat by lia. simpl skipn at 2.
  destruct (skipn n pre) as [|h [|h' t]] eqn:E.
  - apply (f_equal (@List.length _)) in E. rewrite length_skipn in E. simpl in E. lia.
  - reflexivity.
  - apply (f_equal (@List.length _)) in E. rewrite length_skipn in E. simpl in E. lia.
Qed.

Lemma read_csv_short (n : nat) (f : csv) :
  read_csv n f = inl EmptyDataError <-> (List.length f <= n)%nat.
Proof.
  unfold read_csv. split.
  - destruct (skipn n f) eqn:E; [intros _ | discriminate].
    apply (f_equal (@List.length _)) in E. rewrite length_skipn in E. simpl in E. lia.
  - intros H. rewrite skipn_all2 by exact H. reflexivity.
Qed.


(** The cast raises [ValueError] or [OverflowError], never the error of
    a file without a title line. *)
Lemma astype_year_error (dt : dtype) (rows : list line) (e : exn) :
  astype_year dt rows = inl e -> e <> EmptyDataError.
Proof.
  unfold astype_year. induction rows as [|[k v] t IH]; simpl; [discriminate |].
  destruct (astype_int dt k) as [e'|y] eqn:Ek; simpl.
  - intros H. inversion H; subst.
    destruct k as [z|x| |s], dt; simpl in Ek;
      try destruct (Int64.int64 z); try destruct (is_finite x);
      inversion Ek; discriminate.
  - destruct (mapM _ t) as [e'|df]; simpl; [| discriminate].
    intros H. inversion H; subst. apply IH. reflexivity.
Qed.



(* ================================================================== *)
(** ** Further properties of the loaders *)
(* ================================================================== *)

(** X1.  A loader raises [EmptyDataError] exactly when its file has no
    line left for the column titles: fewer than seven lines for the
    inflation file, no line at all for the GDP file.  With such an
    inflation file the page shows that one message and nothing else of
    the pipeline, whatever the GDP file holds. *)
Theorem no_title_line (c g : csv) :
  (load_cpih c = inl EmptyDataError <-> (List.length c < 7)%nat)
  /\ (load_gdp g = inl EmptyDataError <-> g = [])
  /\ ((List.length c < 7)%nat ->
      forall arima sarimax cfg,
        run arima sarimax cfg (Some c) (Some g)
        = (inr tt, page_header ++ [ErrorMsg "Error: No columns to parse from file"])).
Proof.
  assert (Hc : load_cpih c = inl EmptyDataError <-> (List.length c < 7)%nat).
  { split.
    - intros H. unfold load_cpih in H. destruct (read_csv 6 c) as [e|rows] eqn:Er.
      + simpl in H. inversion H; subst. apply read_csv_short in Er. lia.
      + simpl in H. exfalso.
        destruct (astype_year _ _) as [e|df] eqn:Ea; simpl in H; [| discriminate].
        inversion H; subst. exact (astype_year_error _ _ _ Ea eq_refl).
    - intros H. unfold load_cpih. rewrite (proj2 (read_csv_short 6 c)) by lia.
      reflexivity. }
  split; [exact Hc |]. split.
  - split.
    + intros H. destruct g as [|h rows]; [reflexivity |]. exfalso.
      unfold load_gdp in H. simpl in H.
      destruct (astype_year _ rows) as [e|df] eqn:Ea; simpl in H; [| discriminate].
      inversion H; subst. exact (astype_year_error _ _ _ Ea eq_refl).
    + intros ->. reflexivity.
  - intros Hl arima sarimax cfg. rewrite run_both_files, pipeline_steps.
    rewrite (proj2 Hc Hl). reflexivity.
Qed.

Lemma no_title_line_witness :
  run sample_arima sample_sarimax default_config
      (Some (firstn 6 ons_preamble)) (Some gdp_2010_2020)
  = (inr tt, page_header ++ [ErrorMsg "Error: No columns to parse from file"]).
Proof.
  apply (proj2 (proj2 (no_title_line (firstn 6 ons_preamble) gdp_2010_2020))).
  simpl. lia.
Defined.

(** X2.  The first seven lines of the inflation file and the first line
    of the GDP file never reach the table: two files that differ in
    those lines only load alike.  A data row on line 7 of the inflation
    file is read as the column titles and lost. *)
Theorem title_lines_ignored (pre pre' rows : list line) (h h' : line) :
  List.length pre = 7%nat -> List.length pre' = 7%nat ->
  load_cpih (pre ++ rows) = load_cpih (pre' ++ rows)
  /\ load_gdp (h :: rows) = load_gdp (h' :: rows).
Proof.
  intros Hp Hq. split; [| reflexivity].
  unfold load_cpih. rewrite !read_csv_after by assumption. reflexivity.
Qed.

Lemma title_lines_ignored_witness :
  load_cpih (ons_preamble ++ [obs 2016 1.0])
    = load_cpih ((firstn 6 ons_preamble ++ [obs 2015 0.4]) ++ [obs 2016 1.0])
  /\ load_gdp (gdp_title :: [obs 2016 1.0]) = load_gdp (obs 2015 2.2 :: [obs 2016 1.0]).
Proof.
  apply (title_lines_ignored ons_preamble (firstn 6 ons_preamble ++ [obs 2015 0.4])
           [obs 2016 1.0] gdp_title (obs 2015 2.2)); reflexivity.
Defined.

(** X3.  Whatever a loader returns is in ascending order of the year,
    whatever the order of the rows in the file. *)
Theorem loaded_table_sorted (f : csv) (t : list (Z * float)) :
  load_cpih f = inr t \/ load_gdp f = inr t ->
  StronglySorted Z.le (map fst t).
Proof.
  intros [H|H]; [apply (load_cpih_sorted f t H) | apply (load_gdp_sorted f t H)].
Qed.

Lemma loaded_table_sorted_witness :
  StronglySorted Z.le (map fst [(2015, 2.2%float); (2016, 1.9%float); (2017, 2.7%float)]).
Proof.
  apply (loaded_table_sorted gdp_descending
           [(2015, 2.2%float); (2016, 1.9%float); (2017, 2.7%float)]).
  right. reflexivity.
Defined.



(** X5.  On an inflation file of seven lines or more whose years are,
    or truncate to, integers of magnitude at most 2^53, the loader
    raises exactly when the year column holds both a text field and a
    decimal, or holds an infinity: text alone is masked out, and a
    finite decimal in an all-numeric column is truncated. *)
Theorem cpih_raises_exactly (f : csv) (rows : list line) :
  read_csv 6 f = inr rows ->
  exact_years rows = true ->
  (exists e, load_cpih f = inl e)
  <-> (text_year rows = true /\ decimal_year rows = true)
      \/ infinite_year rows = true.
Proof.
  intros Hr Hx. rewrite (load_cpih_exact f rows Hr (exact_years_kept _ rows Hx)).
  destruct (text_year rows), (decimal_year rows), (infinite_year rows); simpl; split;
    try (intros [e He]; discriminate);
    try (intros [[H1 H2]|H3]; discriminate);
    eauto.
Qed.

Lemma cpih_raises_exactly_witness :
  (exists e, load_cpih cpih_infinite_year = inl e)
  <-> (text_year (skipn 7 cpih_infinite_year) = true
       /\ decimal_year (skipn 7 cpih_infinite_year) = true)
      \/ infinite_year (skipn 7 cpih_infinite_year) = true.
Proof.
  apply (cpih_raises_exactly cpih_infinite_year (skipn 7 cpih_infinite_year));
    reflexivity.
Defined.





(* ================================================================== *)
(** ** Further properties of the join *)
(* ================================================================== *)

Lemma matching_count (k : Z) (r : list (Z * float)) :
  List.length (matching k r) = count_occ Z.eq_dec (map fst r) k.
Proof.
  unfold matching. induction r as [|b t IH]; simpl; [reflexivity |].
  destruct (Z.eqb_spec (fst b) k) as [He|Hne]; destruct (Z.eq_dec (fst b) k);
    simpl; try contradiction; rewrite IH; reflexivity.
Qed.

(** X8.  A row of the aligned table pairs the inflation value and the
    GDP value that the two tables hold for that same year: nothing is
    imputed and no value moves to another year. *)
Theorem join_rows (l r : list (Z * float)) (y : Z) (a b : float) :
  In (mkRow y a b) (join_inner l r) <-> In (y, a) l /\ In (y, b) r.
Proof.
  unfold join_inner, matching. rewrite in_flat_map. split.
  - intros ([y1 a1] & Hl & Hm). apply in_map_iff in Hm as ([y2 b2] & He & Hf).
    apply filter_In in Hf as [Hr Hk]. simpl in *.
    apply Z.eqb_eq in Hk. inversion He; subst. auto.
  - intros [Hl Hr]. exists (y, a). split; [exact Hl |].
    apply in_map_iff. exists (y, b). split; [reflexivity |].
    apply filter_In. split; [exact Hr | apply Z.eqb_refl].
Qed.

Lemma index_join_count (l r : list (Z * float)) (y : Z) :
  count_occ Z.eq_dec (index (join_inner l r)) y
  = (count_occ Z.eq_dec (map fst l) y * count_occ Z.eq_dec (map fst r) y)%nat.
Proof.
  induction l as [|a t IH]; [reflexivity |].
  rewrite index_join_cons, count_occ_app, IH. simpl map.
  destruct (Z.eq_dec (fst a) y) as [He|Hne].
  - rewrite count_occ_cons_eq by exact He.
    rewrite count_occ_repeat_eq by (symmetry; exact He).
    rewrite matching_count, He. lia.
  - rewrite count_occ_cons_neq by exact Hne.
    rewrite count_occ_repeat_neq by (intros E; apply Hne; symmetry; exact E).
    lia.
Qed.

(** X9.  A year occurs in the aligned index as many times as the
    product of its occurrences in the two tables: once when each table
    has it once, never when either lacks it, and several times when a
    table repeats it.  The index is in ascending order whenever the left
    table is. *)
Theorem join_multiplicity (l r : list (Z * float)) (y : Z) :
  count_occ Z.eq_dec (index (join_inner l r)) y
  = (count_occ Z.eq_dec (map fst l) y * count_occ Z.eq_dec (map fst r) y)%nat
  /\ (StronglySorted Z.le (map fst l) ->
      StronglySorted Z.le (index (join_inner l r))).
Proof.
  split; [apply index_join_count | apply join_sorted].
Qed.

Lemma join_multiplicity_witness :
  count_occ Z.eq_dec (index (join_inner table_2015_2016 table_2010_2011)) 2015
  = Nat.mul (count_occ Z.eq_dec (map fst table_2015_2016) 2015)
            (count_occ Z.eq_dec (map fst table_2010_2011) 2015)
  /\ StronglySorted Z.le (index (join_inner table_2015_2016 table_2010_2011)).
Proof.
  destruct (join_multiplicity table_2015_2016 table_2010_2011 2015) as [Hc Hs].
  split; [exact Hc |]. apply Hs. repeat constructor; discriminate.
Defined.

(** X10.  The aligned table is empty exactly when the two tables have
    no year in common; in particular when either table is empty. *)
Theorem join_empty_iff (l r : list (Z * float)) :
  join_inner l r = []
  <-> forall y, In y (map fst l) -> In y (map fst r) -> False.
Proof.
  split.
  - intros Hj y Hl Hr.
    assert (Hin : In y (index (join_inner l r))) by (apply in_index_join; auto).
    rewrite Hj in Hin. exact Hin.
  - apply join_disjoint.
Qed.

(** X11.  When neither table repeats a year, the aligned table has at
    most as many rows as the shorter of the two. *)
Theorem join_length_bound (l r : list (Z * float)) :
  NoDup (map fst l) -> NoDup (map fst r) ->
  (List.length (join_inner l r) <= Nat.min (List.length l) (List.length r))%nat.
Proof.
  intros Hl Hr. pose proof (join_nodup l r Hl Hr) as Hn.
  assert (H1 : (List.length (index (join_inner l r)) <= List.length (map fst l))%nat).
  { apply NoDup_incl_length; [exact Hn |]. intros y Hy.
    apply in_index_join in Hy. tauto. }
  assert (H2 : (List.length (index (join_inner l r)) <= List.length (map fst r))%nat).
  { apply NoDup_incl_length; [exact Hn |]. intros y Hy.
    apply in_index_join in Hy. tauto. }
  unfold index in *. rewrite !length_map in *. lia.
Qed.

Lemma nodup_years_2010_2011 : NoDup [2010; 2011].
Proof.
  repeat constructor; simpl; intros H;
    repeat (destruct H as [H|H]; [discriminate |]); exact H.
Defined.

Lemma join_length_bound_witness :
  (List.length (join_inner table_2015_2016 table_2010_2011)
   <= Nat.min (List.length table_2015_2016) (List.length table_2010_2011))%nat.
Proof.
  apply (join_length_bound table_2015_2016 table_2010_2011).
  - exact nodup_years_2015_2016.
  - exact nodup_years_2010_2011.
Defined.

(* ================================================================== *)
(** ** Forecast years against the historical years *)
(* ================================================================== *)

Lemma last_index_max (df : list row) (y : Z) :
  StronglySorted Z.le (index df) -> last_index df = inr y ->
  Forall (fun x => x <= y) (index df).
Proof.
  intros Hs Hl. destruct (last_index_inv df y Hl) as [init Hi].
  rewrite Hi in *. apply sorted_snoc_max, Hs.
Qed.

Lemma in_range (lo hi x : Z) : In x (range lo hi) <-> lo <= x < hi.
Proof.
  unfold range. rewrite in_map_iff. split.
  - intros (i & <- & Hi). apply in_seq in Hi. lia.
  - intros H. exists (Z.to_nat (x - lo)). split; [lia |]. apply in_seq. lia.
Qed.

Lemma range_length (lo hi : Z) : List.length (range lo hi) = Z.to_nat (hi - lo).
Proof. unfold range. rewrite length_map, length_seq. reflexivity. Qed.

Lemma room_for_last (df : list row) (n Y : Z) :
  room_for_horizon df n = true -> last_index df = inr Y ->
  Int64.int64 (Y + 1) = true /\ Int64.int64 (Y + 1 + n) = true.
Proof.
  unfold room_for_horizon. intros Hr Hl. rewrite forallb_forall in Hr.
  apply andb_true_iff, Hr, (last_index_nonempty df Y Hl).
Qed.

(** X12.  For a table the inflation loader returns, joined with any GDP
    table whose years leave room for the horizon below 2^63, every
    forecast year lies after every year of the aligned table, and inside
    the horizon: the forecast never overlaps the history it
    continues. *)
Theorem forecast_after_history
    (c : csv) (tc tg : list (Z * float)) (n : Z) (years : list Z) :
  load_cpih c = inr tc ->
  room_for_horizon (join_inner tc tg) n = true ->
  forecast_years (join_inner tc tg) n = inr years ->
  forall y y', In y (index (join_inner tc tg)) -> In y' years ->
    y < y' /\ exists Y, last_index (join_inner tc tg) = inr Y /\ Y < y' <= Y + n.
Proof.
  intros Hc Hroom Hy y y' Hin Hin'.
  destruct (last_index (join_inner tc tg)) as [e|Y] eqn:El.
  { unfold forecast_years in Hy. rewrite El in Hy. discriminate. }
  destruct (room_for_last _ n Y Hroom El) as [H1 H2].
  rewrite (forecast_years_in_range _ Y n El H1 H2), <- range_after in Hy.
  inversion Hy; subst years. apply in_range in Hin'.
  pose proof (last_index_max _ Y (join_sorted tc tg (load_cpih_sorted c tc Hc)) El) as Hm.
  rewrite Forall_forall in Hm. specialize (Hm y Hin).
  split; [lia |]. exists Y. split; [reflexivity | lia].
Qed.

Lemma forecast_after_history_witness :
  2016 < 2017
  /\ exists Y, last_index (join_inner table_2015_2016 table_2015_2016) = inr Y
               /\ Y < 2017 <= Y + 3.
Proof.
  apply (forecast_after_history cpih_2015_2016 table_2015_2016 table_2015_2016 3
           [2017; 2018; 2019] eq_refl eq_refl eq_refl 2016 2017).
  - simpl. right. left. reflexivity.
  - simpl. left. reflexivity.
Defined.

(* ================================================================== *)
(** ** The forecast table against the forecast chart *)
(* ================================================================== *)

Lemma map_nth_all {A : Type} (l : list A) (d : A) :
  map (fun i => nth i l d) (seq 0 (List.length l)) = l.
Proof.
  induction l as [|a t IH]; [reflexivity |].
  simpl. f_equal. rewrite <- seq_shift, map_map. exact IH.
Qed.

(** Steps labelled with the forecast years fill the table in order. *)
Lemma reindex_same_labels (fr : forecast_results) (lo hi : Z) :
  first_label fr = lo ->
  List.length (range lo hi) = List.length (predictions fr) ->
  reindex fr (range lo hi) = predictions fr.
Proof.
  intros Hl Hn. rewrite range_length in Hn. unfold reindex, range.
  rewrite map_map, Hn, Hl.
  transitivity (map (fun i => nth i (predictions fr) nan_row)
                     (seq 0 (List.length (predictions fr))));
    [| apply map_nth_all].
  apply map_ext_in. intros i Hi. apply in_seq in Hi.
  replace (lo <=? lo + Z.of_nat i) with true by (symmetry; apply Z.leb_le; lia).
  replace (lo + Z.of_nat i <? lo + Z.of_nat (List.length (predictions fr))) with true
    by (symmetry; apply Z.ltb_lt; lia).
  simpl. f_equal. lia.
Qed.

(** Steps labelled before the forecast years leave the table empty. *)
Lemma reindex_labels_before (fr : forecast_results) (lo hi : Z) :
  first_label fr + Z.of_nat (List.length (predictions fr)) <= lo ->
  reindex fr (range lo hi) = map (fun _ => nan_row) (range lo hi).
Proof.
  intros Hl. unfold reindex. apply map_ext_in. intros y Hy. apply in_range in Hy.
  replace (y <? first_label fr + Z.of_nat (List.length (predictions fr))) with false
    by (symmetry; apply Z.ltb_ge; lia).
  rewrite andb_false_r. reflexivity.
Qed.

Lemma forecast_years_range (df : list row) (n : Z) (years : list Z) :
  forecast_years df n = inr years -> exists lo hi, years = range lo hi.
Proof.
  unfold forecast_years. destruct (last_index df) as [e|y]; [discriminate |].
  simpl. intros H. inversion H. eauto.
Qed.

(* ================================================================== *)
(** ** Further properties of the page *)
(* ================================================================== *)

Lemma range_first (lo hi y : Z) : nth_error (range lo hi) 0 = Some y -> y = lo.
Proof.
  unfold range. destruct (Z.to_nat (hi - lo)); simpl; [discriminate |].
  intros H. inversion H. lia.
Qed.

Section PageMore.

Variable arima_forecast : list float -> Z * Z * Z -> Z -> result (list float).
Variable sarimax_forecast :
  list float -> list float -> Z * Z * Z -> Z -> list float -> result forecast_results.

Local Abbreviation pipeline' := (pipeline arima_forecast sarimax_forecast).
Local Abbreviation run' := (run arima_forecast sarimax_forecast).

(** A successful run, with the two fits it went through. *)
Lemma pipeline_succeeded_fits (cfg : config) (c g : csv) (out : list element) :
  pipeline' cfg c g page_header = (inr tt, out) ->
  exists tc tg gdp_forecast forecast_res years fig,
    load_cpih c = inr tc /\ load_gdp g = inr tg
    /\ arima_forecast (map GDP_Growth (join_inner tc tg))
         (pg cfg, dg cfg, qg cfg) (n_years cfg) = inr gdp_forecast
    /\ sarimax_forecast (map CPIH (join_inner tc tg))
         (map GDP_Growth (join_inner tc tg))
         (p cfg, d cfg, q cfg) (n_years cfg) gdp_forecast = inr forecast_res
    /\ forecast_years (join_inner tc tg) (n_years cfg) = inr years
    /\ plot_forecast (join_inner tc tg) years (predictions forecast_res) = inr fig
    /\ out = (page_header ++ historical cfg (join_inner tc tg))
               ++ [ Subheader "CPIH Forecast"; Pyplot fig;
                    Subheader "Forecast Table";
                    Dataframe years (reindex forecast_res years) ].
Proof.
  rewrite pipeline_steps.
  destruct (load_cpih c) as [e1|tc]; [discriminate |].
  destruct (load_gdp g) as [e2|tg]; [discriminate |].
  cbv zeta.
  destruct (arima_forecast _ _ _) as [e3|gf] eqn:Ea; [discriminate |].
  destruct (sarimax_forecast _ _ _ _ _) as [e4|fr] eqn:Es; [discriminate |].
  destruct (forecast_years _ _) as [e5|ys] eqn:Ey; [discriminate |].
  destruct (plot_forecast _ _ _) as [e6|fig] eqn:Ep; [discriminate |].
  intros H. inversion H; subst.
  exists tc, tg, gf, fr, ys, fig. repeat split; assumption.
Qed.

(** X13.  With both files uploaded a run ends in exactly one of two
    ways: one error message and no forecast output, or the forecast
    chart followed by the forecast table and no error message. *)
Theorem error_or_forecast (cfg : config) (c g : csv) :
  (exists m,
     filter is_error (snd (run' cfg (Some c) (Some g))) = [ErrorMsg m]
     /\ filter is_forecast_output (snd (run' cfg (Some c) (Some g))) = [])
  \/ (filter is_error (snd (run' cfg (Some c) (Some g))) = []
      /\ exists fig years forecast_res,
           filter is_forecast_output (snd (run' cfg (Some c) (Some g)))
           = [Pyplot fig; Dataframe years forecast_res]).
Proof.
  rewrite run_both_files.
  destruct (pipeline _ _ cfg c g page_header) as [[e|[]] out] eqn:Hp.
  - left. exists ("Error: " ++ str e)%string. simpl snd. rewrite !filter_app.
    apply pipeline_failed in Hp as [[-> _]|(tc & tg & _ & _ & [->| ->])];
      split; reflexivity.
  - right. simpl snd.
    apply pipeline_succeeded in Hp as (tc & tg & ys & fr & fig & _ & _ & _ & _ & ->).
    split; [reflexivity |]. exists fig, ys, (reindex fr ys). reflexivity.
Qed.

(** X14.  The historical chart and the seven widgets are on the page
    exactly when both files load, and then the chart shows the aligned
    table and the widgets come in the order of lines 38-48, whatever the
    fits do afterwards. *)
Theorem input_section_iff_loaded (cfg : config) (c g : csv) :
  filter is_input_section (snd (run' cfg (Some c) (Some g)))
  = match load_cpih c, load_gdp g with
    | inr tc, inr tg => LineChart (join_inner tc tg) :: widgets cfg
    | _, _ => []
    end.
Proof.
  rewrite run_both_files, pipeline_steps.
  destruct (load_cpih c) as [e1|tc]; [reflexivity |].
  destruct (load_gdp g) as [e2|tg]; [reflexivity |]. cbv zeta.
  destruct (arima_forecast _ _ _) as [e3|gf]; [reflexivity |].
  destruct (sarimax_forecast _ _ _ _ _) as [e4|fr]; [reflexivity |].
  destruct (forecast_years _ _) as [e5|ys]; [reflexivity |].
  destruct (plot_forecast _ _ _) as [e6|fig]; reflexivity.
Qed.

(** X15.  When the years of the aligned table leave room for the
    horizon below 2^63, a run shows no error message exactly when both
    files load, the aligned table is not empty, both fits return, and
    the target forecast has as many steps as the horizon asks for. *)
Theorem run_succeeds_iff (cfg : config) (c g : csv) :
  (forall tc tg, load_cpih c = inr tc -> load_gdp g = inr tg ->
     room_for_horizon (join_inner tc tg) (n_years cfg) = true) ->
  filter is_error (snd (run' cfg (Some c) (Some g))) = []
  <-> exists tc tg gdp_forecast forecast_res,
        load_cpih c = inr tc /\ load_gdp g = inr tg
        /\ join_inner tc tg <> []
        /\ arima_forecast (map GDP_Growth (join_inner tc tg))
             (pg cfg, dg cfg, qg cfg) (n_years cfg) = inr gdp_forecast
        /\ sarimax_forecast (map CPIH (join_inner tc tg))
             (map GDP_Growth (join_inner tc tg))
             (p cfg, d cfg, q cfg) (n_years cfg) gdp_forecast = inr forecast_res
        /\ List.length (predictions forecast_res) = Z.to_nat (n_years cfg).
Proof.
  intros Hroom. rewrite run_both_files, pipeline_steps. split.
  - destruct (load_cpih c) as [e1|tc]; [discriminate |].
    destruct (load_gdp g) as [e2|tg]; [discriminate |]. cbv zeta.
    specialize (Hroom tc tg eq_refl eq_refl).
    destruct (arima_forecast _ _ _) as [e3|gf] eqn:Ea; [discriminate |].
    destruct (sarimax_forecast _ _ _ _ _) as [e4|fr] eqn:Es; [discriminate |].
    destruct (last_index (join_inner tc tg)) as [e5|Y] eqn:El.
    { unfold forecast_years. rewrite El. discriminate. }
    destruct (room_for_last _ _ Y Hroom El) as [H1 H2].
    rewrite (forecast_years_in_range _ Y _ El H1 H2).
    unfold plot_forecast. rewrite years_after_length.
    destruct (Nat.eqb_spec (Z.to_nat (n_years cfg)) (List.length (predictions fr)))
      as [Hlen|]; [| discriminate].
    intros _. exists tc, tg, gf, fr. repeat split; try assumption.
    + apply (last_index_nonempty _ Y El).
    + symmetry. exact Hlen.
  - intros (tc & tg & gf & fr & Hc & Hg & Hne & Ha & Hs & Hlen).
    specialize (Hroom tc tg Hc Hg). rewrite Hc, Hg. cbv zeta.
    rewrite Ha, Hs.
    destruct (last_index (join_inner tc tg)) as [e5|Y] eqn:El.
    { exfalso. apply Hne. unfold last_index in El.
      destruct (rev (index (join_inner tc tg))) as [|z t] eqn:Er; [| discriminate].
      apply (f_equal (@rev Z)) in Er. rewrite rev_involutive in Er.
      unfold index in Er. destruct (join_inner tc tg); [reflexivity | discriminate]. }
    destruct (room_for_last _ _ Y Hroom El) as [H1 H2].
    rewrite (forecast_years_in_range _ Y _ El H1 H2).
    unfold plot_forecast. rewrite years_after_length, Hlen, Nat.eqb_refl.
    reflexivity.
Qed.

(** X16.  In a successful run the forecast chart and the forecast table
    are built from the same forecast, but not the same way.  The chart
    plots the steps of the forecast against the forecast years by
    position, and its historical line is the inflation column of the
    table drawn in the historical chart.  The table has one row per
    forecast year and lines the steps up with the years by label: it
    shows the forecast as the chart does when the labels of the steps
    are the forecast years, and rows of NaN when the labels all come
    before the first forecast year. *)
Theorem table_aligned_by_label (cfg : config) (c g : csv) (out : list element) :
  pipeline' cfg c g page_header = (inr tt, out) ->
  exists df gdp_forecast forecast_res fig years,
    sarimax_forecast (map CPIH df) (map GDP_Growth df)
      (p cfg, d cfg, q cfg) (n_years cfg) gdp_forecast = inr forecast_res
    /\ filter (fun x => is_chart x || is_table x) out
       = [LineChart df; Pyplot fig; Dataframe years (reindex forecast_res years)]
    /\ hist_x fig = index df /\ hist_y fig = map CPIH df
    /\ fc_x fig = years
    /\ fc_y fig = map mean (predictions forecast_res)
    /\ band_lower fig = map lower (predictions forecast_res)
    /\ band_upper fig = map upper (predictions forecast_res)
    /\ List.length (fc_y fig) = List.length (fc_x fig)
    /\ List.length (hist_y fig) = List.length (hist_x fig)
    /\ List.length (reindex forecast_res years) = List.length years
    /\ (forall y, nth_error years 0 = Some y ->
          (first_label forecast_res = y ->
             reindex forecast_res years = predictions forecast_res)
          /\ (first_label forecast_res
                + Z.of_nat (List.length (predictions forecast_res)) <= y ->
              reindex forecast_res years = map (fun _ => nan_row) years)).
Proof.
  intros Hp.
  apply pipeline_succeeded_fits in Hp
    as (tc & tg & gf & fr & ys & fig & _ & _ & _ & Hs & Hy & Hf & ->).
  unfold plot_forecast in Hf.
  destruct (Nat.eqb_spec (List.length ys) (List.length (predictions fr)))
    as [Hlen|]; [| discriminate].
  assert (Hfig : fig = mkFigure (index (join_inner tc tg)) (map CPIH (join_inner tc tg))
                         ys (map mean (predictions fr)) (map lower (predictions fr))
                         (map upper (predictions fr)))
    by (inversion Hf; reflexivity).
  destruct (forecast_years_range _ _ _ Hy) as (lo & hi & ->).
  exists (join_inner tc tg), gf, fr, fig, (range lo hi).
  split; [exact Hs |]. split; [reflexivity |].
  rewrite Hfig. simpl.
  split; [reflexivity |]. split; [reflexivity |]. split; [reflexivity |].
  split; [reflexivity |]. split; [reflexivity |]. split; [reflexivity |].
  split; [rewrite length_map; symmetry; exact Hlen |].
  split; [unfold index; rewrite !length_map; reflexivity |].
  split; [apply reindex_length |].
  intros y Hy0. apply range_first in Hy0. subst y. split.
  - intros Hl. apply reindex_same_labels; assumption.
  - apply reindex_labels_before.
Qed.

End PageMore.

Lemma run_succeeds_iff_witness :
  filter is_error
    (snd (run sample_arima sample_sarimax horizon_3
            (Some cpih_2015_2022) (Some gdp_2010_2020))) = [].
Proof.
  refine (proj2 (run_succeeds_iff sample_arima sample_sarimax horizon_3
                   cpih_2015_2022 gdp_2010_2020 _) _).
  - intros tc tg Hc Hg. vm_compute in Hc, Hg.
    injection Hc as <-. injection Hg as <-. reflexivity.
  - eexists _, _, _, _. repeat split; try reflexivity. discriminate.
Defined.

Lemma table_aligned_by_label_witness :
  exists df gdp_forecast forecast_res fig years,
    sample_sarimax (map CPIH df) (map GDP_Growth df)
      (p horizon_3, d horizon_3, q horizon_3) (n_years horizon_3) gdp_forecast
    = inr forecast_res
    /\ filter (fun x => is_chart x || is_table x)
         (snd (pipeline sample_arima sample_sarimax horizon_3
                 cpih_2015_2022 gdp_2010_2020 page_header))
       = [LineChart df; Pyplot fig; Dataframe years (reindex forecast_res years)]
    /\ hist_x fig = index df /\ hist_y fig = map CPIH df
    /\ fc_x fig = years
    /\ fc_y fig = map mean (predictions forecast_res)
    /\ band_lower fig = map lower (predictions forecast_res)
    /\ band_upper fig = map upper (predictions forecast_res)
    /\ List.length (fc_y fig) = List.length (fc_x fig)
    /\ List.length (hist_y fig) = List.length (hist_x fig)
    /\ List.length (reindex forecast_res years) = List.length years
    /\ (forall y, nth_error years 0 = Some y ->
          (first_label forecast_res = y ->
             reindex forecast_res years = predictions forecast_res)
          /\ (first_label forecast_res
                + Z.of_nat (List.length (predictions forecast_res)) <= y ->
              reindex forecast_res years = map (fun _ => nan_row) years)).
Proof.
  apply (table_aligned_by_label sample_arima sample_sarimax horizon_3
           cpih_2015_2022 gdp_2010_2020).
  reflexivity.
Defined.

(** The sample run: six years of history, so the three steps of the
    forecast are labelled 6, 7 and 8; the chart plots them against 2021,
    2022 and 2023, and the table, indexed by those years, finds no step
    under any of them. *)
Lemma scenario_forecast_table :
  filter is_forecast_output
    (snd (run sample_arima sample_sarimax horizon_3
            (Some cpih_2015_2022) (Some gdp_2010_2020)))
  = [ Pyplot (mkFigure [2015; 2016; 2017; 2018; 2019; 2020]
                [0.4; 1.0; 2.6; 2.3; 1.7; 1.0]%float
                [2021; 2022; 2023]
                [1.0; 1.0; 1.0]%float [0.0; 0.0; 0.0]%float [2.0; 2.0; 2.0]%float);
      Dataframe [2021; 2022; 2023] [nan_row; nan_row; nan_row] ].
Proof. reflexivity. Qed.

(* ================================================================== *)
(** ** The order of the rows in the files *)
(* ================================================================== *)











(* ================================================================== *)
(** ** The horizon and the guard *)
(* ================================================================== *)

Section Horizon.

Variable arima_forecast : list float -> Z * Z * Z -> Z -> result (list float).
Variable sarimax_forecast :
  list float -> list float -> Z * Z * Z -> Z -> list float -> result forecast_results.

Local Abbreviation pipeline' := (pipeline arima_forecast sarimax_forecast).
Local Abbreviation run' := (run arima_forecast sarimax_forecast).

(** X18.  With the values the widgets can return, a successful run on
    an aligned table that ends with the year [Y] and leaves room for the
    horizon below 2^63 forecasts at least one and at most ten years: the
    forecast table, the only table of the page, has that many rows, its
    first year is [Y + 1] and its last year is [Y] plus the horizon. *)
Theorem horizon_bounds
    (cfg : config) (c g : csv) (out : list element)
    (tc tg : list (Z * float)) (init : list Z) (Y : Z) :
  widget_ranges cfg = true ->
  pipeline' cfg c g page_header = (inr tt, out) ->
  load_cpih c = inr tc -> load_gdp g = inr tg ->
  index (join_inner tc tg) = init ++ [Y] ->
  room_for_horizon (join_inner tc tg) (n_years cfg) = true ->
  exists years forecast_res,
    filter is_table out = [Dataframe years forecast_res]
    /\ (1 <= List.length years <= 10)%nat
    /\ List.length years = Z.to_nat (n_years cfg)
    /\ List.length forecast_res = List.length years
    /\ nth_error years 0 = Some (Y + 1)
    /\ nth_error years (List.length years - 1) = Some (Y + n_years cfg).
Proof.
  intros Hw Hp Hc Hg Hi Hroom.
  assert (Hn : 1 <= n_years cfg <= 10).
  { unfold widget_ranges, between in Hw.
    rewrite !andb_true_iff, !Z.leb_le in Hw. lia. }
  apply pipeline_succeeded in Hp
    as (tc' & tg' & ys & fr & fig & Hc' & Hg' & Hy & _ & ->).
  rewrite Hc in Hc'. rewrite Hg in Hg'.
  inversion Hc'; subst tc'. inversion Hg'; subst tg'.
  pose proof (last_index_last _ init Y Hi) as El.
  destruct (room_for_last _ _ Y Hroom El) as [H1 H2].
  rewrite (forecast_years_in_range _ Y _ El H1 H2) in Hy.
  inversion Hy; subst ys. clear Hy.
  eexists _, _. split; [reflexivity |].
  rewrite reindex_length, years_after_length.
  split; [lia |]. split; [reflexivity |]. split; [reflexivity |]. split.
  - rewrite years_after_nth by lia. f_equal. lia.
  - rewrite years_after_nth by lia. f_equal. lia.
Qed.

(** X19.  The page is the bare header exactly when a file is missing:
    with both files uploaded a run always adds to it, an error message
    at the least. *)
Theorem bare_page_iff_file_missing (cfg : config) (cpih_file gdp_file : option csv) :
  snd (run' cfg cpih_file gdp_file) = page_header
  <-> cpih_file = None \/ gdp_file = None.
Proof.
  split.
  - destruct cpih_file as [c|]; [| auto]. destruct gdp_file as [g|]; [| auto].
    intros H. exfalso. rewrite run_both_files in H.
    destruct (pipeline _ _ cfg c g page_header) as [[e|[]] out] eqn:Hp; simpl in H.
    + apply (f_equal (filter is_error)) in H. rewrite filter_app in H. simpl in H.
      destruct (filter is_error out); discriminate.
    + apply pipeline_succeeded in Hp as (tc & tg & ys & fr & fig & _ & _ & _ & _ & ->).
      apply (f_equal (filter is_forecast_output)) in H. discriminate.
  - intros [-> | ->]; [reflexivity | destruct cpih_file; reflexivity].
Qed.

End Horizon.

Lemma horizon_bounds_witness :
  exists years forecast_res,
    filter is_table
      (snd (pipeline sample_arima sample_sarimax horizon_3
              cpih_2015_2022 gdp_2010_2020 page_header))
    = [Dataframe years forecast_res]
    /\ (1 <= List.length years <= 10)%nat
    /\ List.length years = Z.to_nat (n_years horizon_3)
    /\ List.length forecast_res = List.length years
    /\ nth_error years 0 = Some (2020 + 1)
    /\ nth_error years (List.length years - 1) = Some (2020 + n_years horizon_3).
Proof.
  apply (horizon_bounds sample_arima sample_sarimax horizon_3
           cpih_2015_2022 gdp_2010_2020 _
           (sort_index (spec_kept_rows (skipn 7 cpih_2015_2022)))
           (sort_index (spec_kept_rows (skipn 1 gdp_2010_2020)))
           [2015; 2016; 2017; 2018; 2019] 2020); reflexivity.
Defined.
